(** * AI_DOC: the PDF document generator (streamlit_PDF_generator.py)

    A shallow embedding of the two classes of the program, [PDFGenerator]
    and [AIClient], and the properties of their methods.

    Python strings are sequences of Unicode code points, so a [str] is a
    list of code points here; the literals of the source are written as
    UTF-8 text and decoded by [py].  Functions that can raise return an
    [outcome]; the methods that talk to Streamlit, the clock, ReportLab or
    the network run in the monad [M] over a [World]. *)

From Stdlib Require Import String Ascii List NArith ZArith Bool Lia.
From Stdlib Require DecimalString.
Import ListNotations.

Local Open Scope N_scope.
Local Set Warnings "-register-all".

(** ** Python strings *)

Definition codepoint := N.
Definition pystr := list codepoint.

Module Utf8.

(** Decoder for the literals: [pending] continuation bytes are still
    expected for the code point accumulated in [acc]. *)
Fixpoint decode (bs : list N) (pending : nat) (acc : N) : pystr :=
  match bs with
  | [] => []
  | b :: rest =>
      match pending with
      | O =>
          if b <? 0x80 then b :: decode rest O 0
          else if b <? 0xE0 then decode rest 1%nat (N.land b 0x1F)
          else if b <? 0xF0 then decode rest 2%nat (N.land b 0x0F)
          else decode rest 3%nat (N.land b 0x07)
      | S O => (acc * 64 + N.land b 0x3F) :: decode rest O 0
      | S p => decode rest p (acc * 64 + N.land b 0x3F)
      end
  end.

Fixpoint bytes (s : string) : list N :=
  match s with
  | EmptyString => []
  | String a t => N_of_ascii a :: bytes t
  end.

End Utf8.

(** A source literal as a Python string. *)
Definition py (s : string) : pystr := Utf8.decode (Utf8.bytes s) O 0.

Fixpoint pystr_eqb (a b : pystr) : bool :=
  match a, b with
  | [], [] => true
  | x :: a', y :: b' => (x =? y) && pystr_eqb a' b'
  | _, _ => false
  end.

(** [s.startswith(prefix)] *)
Fixpoint startswith (s prefix : pystr) : bool :=
  match prefix, s with
  | [], _ => true
  | p :: ps, c :: cs => (c =? p) && startswith cs ps
  | _ :: _, [] => false
  end.

(** [s.endswith(suffix)] *)
Definition endswith (s suffix : pystr) : bool :=
  startswith (rev s) (rev suffix).

(** [sub in s] for strings. *)
Fixpoint contains (s sub : pystr) : bool :=
  startswith s sub ||
  match s with
  | [] => false
  | _ :: t => contains t sub
  end.

(** [str.isspace] of one code point: the white space of the Unicode
    character database (bidirectional class WS, B or S, or category Zs). *)
Definition isspace (c : codepoint) : bool :=
  ((0x09 <=? c) && (c <=? 0x0D)) || ((0x1C <=? c) && (c <=? 0x20))
  || (c =? 0x85) || (c =? 0xA0) || (c =? 0x1680)
  || ((0x2000 <=? c) && (c <=? 0x200A))
  || (c =? 0x2028) || (c =? 0x2029) || (c =? 0x202F) || (c =? 0x205F)
  || (c =? 0x3000).

Fixpoint lstrip (s : pystr) : pystr :=
  match s with
  | [] => []
  | c :: t => if isspace c then lstrip t else s
  end.

Definition rstrip (s : pystr) : pystr := rev (lstrip (rev s)).

(** [s.strip()] *)
Definition strip (s : pystr) : pystr := rstrip (lstrip s).

(** [s.replace(old, new)] where [old] and [new] are one character each:
    every occurrence of the character is replaced. *)
Definition replace (old new : codepoint) (s : pystr) : pystr :=
  map (fun c => if c =? old then new else c) s.

(** [s.split('\n\n')]: the pieces between the non-overlapping occurrences
    of the separator, found from the left.  [push c pieces] puts [c] in
    front of the first piece. *)
Definition push (c : codepoint) (pieces : list pystr) : list pystr :=
  match pieces with
  | h :: tl => (c :: h) :: tl
  | [] => [[c]]
  end.

Fixpoint split_blank (s : pystr) : list pystr :=
  match s with
  | [] => [[]]
  | c :: t =>
      match t with
      | d :: r =>
          if (c =? 10) && (d =? 10) then [] :: split_blank r
          else push c (split_blank t)
      | [] => push c (split_blank t)
      end
  end.

(** [str(n)] for an [int]. *)
Definition str_of_int (z : Z) : pystr :=
  py (DecimalString.NilZero.string_of_int (Z.to_int z)).

(** ** PDFGenerator.clean_text_for_pdf *)

Definition clean_text_for_pdf (text : pystr) : pystr :=
  let text := replace 0x2019 39 text in   (* right single quotation mark *)
  let text := replace 0x201c 34 text in   (* left double quotation mark *)
  let text := replace 0x201d 34 text in   (* right double quotation mark *)
  let text := replace 0x2013 45 text in   (* en dash *)
  let text := replace 0x2014 45 text in   (* em dash *)
  text.

(** ** Exceptions *)

(** The classes the handlers of the program tell apart; every exception of
    the model is an instance of [Exception].  [exn_str] is [str(e)]. *)
Inductive exn_class := RequestsTimeout | RequestsConnectionError | OtherException.

Record exn := Exn { exn_cls : exn_class; exn_str : pystr }.

Inductive outcome (A : Type) : Type :=
| Returned (a : A)
| Raised (e : exn).
Arguments Returned {A} a.
Arguments Raised {A} e.

(** ** Values decoded from JSON *)

Inductive pyval :=
| PNone
| PBool (b : bool)
| PInt (z : Z)
| PFloat (literal : pystr)
| PStr (s : pystr)
| PList (l : list pyval)
| PDict (d : list (pystr * pyval)).

Inductive subscript := KStr (s : pystr) | KInt (z : Z).

(** The errors the built-in operations raise on decoded values. *)
Inductive builtin_error :=
| NotIterable (v : pyval)                 (* TypeError of [x in v] *)
| NoLen (v : pyval)                       (* TypeError of [len(v)] *)
| BadSubscript (v : pyval) (k : subscript) (* TypeError of [v[k]] *)
| KeyError (k : subscript)
| IndexError (v : pyval)
| AttributeError (v : pyval) (name : pystr).

(** ** What the interpreter supplies

    The case tables of the Unicode character database, the texts of the
    built-in errors and [str] of a value that is not a string are not part
    of the program; they are taken as given. *)
Record PyRuntime := {
  cp_islower : codepoint -> bool;
  cp_isupper : codepoint -> bool;
  cp_istitle : codepoint -> bool;
  py_lower : pystr -> pystr;                  (* [s.lower()] *)
  builtin_error_str : builtin_error -> pystr; (* [str(e)] *)
  py_str : pyval -> pystr                     (* [str(v)] *)
}.

Definition ascii_islower (c : codepoint) : bool := (97 <=? c) && (c <=? 122).
Definition ascii_isupper (c : codepoint) : bool := (65 <=? c) && (c <=? 90).
Definition ascii_tolower (c : codepoint) : codepoint :=
  if ascii_isupper c then c + 32 else c.

(** On ASCII the tables are the familiar ones; this is all the theorems
    ask of a runtime. *)
Record ascii_conformant (R : PyRuntime) : Prop := {
  conf_islower : forall c, c < 128 -> cp_islower R c = ascii_islower c;
  conf_isupper : forall c, c < 128 -> cp_isupper R c = ascii_isupper c;
  conf_istitle : forall c, c < 128 -> cp_istitle R c = false;
  conf_lower : forall s, Forall (fun c => c < 128) s ->
                         py_lower R s = map ascii_tolower s
}.

(** A runtime whose tables stop at ASCII, for evaluating examples. *)
Definition ascii_runtime : PyRuntime := {|
  cp_islower := ascii_islower;
  cp_isupper := ascii_isupper;
  cp_istitle := fun _ => false;
  py_lower := map ascii_tolower;
  builtin_error_str := fun _ => [];
  py_str := fun _ => []
|}.

(** ** The outside world *)

(** The JSON body of the chat-completion request. *)
Record chat_payload := {
  model : pystr;
  messages : list (pystr * pystr);   (* role, content *)
  max_tokens : Z;
  temperature : pystr;               (* the literal of the source *)
  top_p : Z;
  stream : bool
}.

(** A [requests.Response]: [response.json()] and [response.text] may raise. *)
Record response := {
  status_code : Z;
  json : outcome pyval;
  text : outcome pystr
}.

Inductive style_name := CustomTitle | CustomBody | CustomHeader | Normal.

Inductive flowable :=
| Paragraph (text : pystr) (style : style_name)
| Spacer (width height : Z).

Record World := {
  GROQ_API_TOKEN : pystr;
  requests_post : pystr -> chat_payload -> list (pystr * pystr) -> Z -> outcome response;
  now_strftime : pystr -> pystr;   (* [datetime.now().strftime(fmt)] *)
  (* ReportLab: the markup error of a paragraph text, if any, and the
     layout of a story into the bytes of a PDF *)
  paragraph_error : pystr -> style_name -> option exn;
  doc_build : list flowable -> outcome (list Byte.byte)
}.

(** Calls that show a message in the Streamlit page. *)
Inductive st_call := st_warning (msg : pystr) | st_error (msg : pystr).

(** ** The monad of the methods: read the world, append to the page, return
    or raise. *)
Definition M (A : Type) : Type := World -> list st_call -> outcome A * list st_call.

Definition ret {A} (a : A) : M A := fun _ page => (Returned a, page).

Definition bind {A B} (m : M A) (k : A -> M B) : M B :=
  fun W page =>
    match m W page with
    | (Returned a, page') => k a W page'
    | (Raised e, page') => (Raised e, page')
    end.

Definition raise {A} (e : exn) : M A := fun _ page => (Raised e, page).

Definition lift {A} (o : outcome A) : M A := fun _ page => (o, page).

Definition world : M World := fun W page => (Returned W, page).

Definition show (c : st_call) : M unit := fun _ page => (Returned tt, page ++ [c]).

(** [try: body except Exception as e: handler e] *)
Definition try_except {A} (body : M A) (handler : exn -> M A) : M A :=
  fun W page =>
    match body W page with
    | (Returned a, page') => (Returned a, page')
    | (Raised e, page') => handler e W page'
    end.

Declare Scope monad_scope.
Delimit Scope monad_scope with monad.
Notation "x <- m ;; k" := (bind m (fun x => k))
  (at level 61, m at next level, right associativity) : monad_scope.
Notation "m ;;; k" := (bind m (fun _ => k))
  (at level 61, right associativity) : monad_scope.

(** [for x in xs: acc = body acc x] *)
Fixpoint for_each {A B} (body : B -> A -> M B) (xs : list A) (acc : B) : M B :=
  match xs with
  | [] => ret acc
  | x :: rest => bind (body acc x) (for_each body rest)
  end.

(** Truth value of a string. *)
Definition truthy (s : pystr) : bool :=
  match s with [] => false | _ :: _ => true end.

(** [d.get(key, default)] on a dictionary literal. *)
Fixpoint dict_get {A} (d : list (pystr * A)) (key : pystr) (default : A) : A :=
  match d with
  | [] => default
  | (k, v) :: rest => if pystr_eqb k key then v else dict_get rest key default
  end.

(** ** The string literals of AIClient *)

Definition GROQ_API_URL : pystr := py "https://api.groq.com/openai/v1/chat/completions".

Definition system_prompts : list (pystr * pystr) := [
  (py "cover_letter", py "You are a professional career advisor. Write a compelling, well-structured cover letter based on the provided information. Use proper business letter format with clear paragraphs, professional tone, and highlight relevant skills and experience. Make it engaging and tailored to the role.");
  (py "resume", py "You are a professional resume writer. Create a comprehensive, well-structured resume based on the provided information. Include sections like Professional Summary, Work Experience (with bullet points of achievements), Education, Skills, and any other relevant sections. Use clear formatting and professional language.");
  (py "proposal", py "You are a business proposal writer. Create a comprehensive business proposal based on the provided information. Include sections like Executive Summary, Problem Statement, Proposed Solution, Implementation Plan, Timeline, Budget Considerations, and Expected Outcomes. Make it professional and persuasive.");
  (py "letter", py "You are a professional letter writer. Create a formal, well-structured letter based on the provided information. Use proper business letter format with appropriate greeting, body paragraphs, and closing. Maintain a professional and respectful tone throughout.");
  (py "document", py "You are a professional document writer. Create a well-structured, professional document based on the provided information. Organize the content logically with clear headings and paragraphs.")
].

Definition template_cover_letter : pystr := py "Dear Hiring Manager,

I am writing to express my strong interest in the position you have available. Based on the information provided:

{prompt}

I am confident that my background and skills make me an excellent candidate for this role. My experience includes:

• Strong analytical and problem-solving abilities
• Excellent written and verbal communication skills
• Proven track record of working effectively in team environments
• Adaptability and eagerness to learn new technologies and methodologies

I am excited about the opportunity to contribute to your organization and would welcome the chance to discuss how my qualifications align with your needs. I am available for an interview at your convenience and look forward to hearing from you.

Thank you for your time and consideration.

Sincerely,
[Your Name]".

Definition template_resume : pystr := py "[YOUR NAME]
[Your Email Address] | [Your Phone Number] | [Your City, State]
[LinkedIn Profile] | [Portfolio/Website]

PROFESSIONAL SUMMARY
Experienced professional with a strong background in the requirements outlined: {prompt}

CORE COMPETENCIES
• Technical Skills: [Based on your background]
• Leadership & Team Management
• Project Management
• Problem Solving & Analysis
• Communication & Collaboration

PROFESSIONAL EXPERIENCE

[MOST RECENT POSITION] | [Company Name] | [Dates]
• Led projects and initiatives resulting in improved efficiency
• Collaborated with cross-functional teams to achieve organizational goals  
• Implemented solutions that enhanced operational effectiveness
• Demonstrated expertise in relevant technologies and methodologies

[PREVIOUS POSITION] | [Company Name] | [Dates]
• Contributed to key projects and strategic initiatives
• Developed and maintained professional relationships with stakeholders
• Applied technical skills to solve complex business challenges

EDUCATION
[Degree] in [Field] | [University Name] | [Year]

CERTIFICATIONS & ADDITIONAL QUALIFICATIONS
[Relevant certifications based on your field]".

Definition template_proposal : pystr := py "BUSINESS PROPOSAL

EXECUTIVE SUMMARY
This proposal outlines a comprehensive solution to address the requirements specified: {prompt}

PROBLEM STATEMENT
Based on the current situation and needs identified, there are opportunities for improvement that can be addressed through strategic planning and implementation.

PROPOSED SOLUTION
Our recommended approach includes:
• Thorough analysis of current processes and systems
• Development of customized solutions tailored to specific requirements
• Implementation of best practices and industry standards
• Ongoing support and optimization

IMPLEMENTATION PLAN
Phase 1: Assessment and Planning (Weeks 1-2)
• Detailed requirements gathering
• Stakeholder interviews and analysis
• Solution design and documentation

Phase 2: Development and Testing (Weeks 3-6)
• Solution development and configuration
• Quality assurance and testing procedures
• User training materials preparation

Phase 3: Deployment and Support (Weeks 7-8)
• System deployment and go-live support
• User training and knowledge transfer
• Post-implementation support and optimization

EXPECTED OUTCOMES
• Improved efficiency and productivity
• Enhanced user experience and satisfaction
• Measurable return on investment
• Scalable solution for future growth

BUDGET CONSIDERATIONS
Investment required will be commensurate with the scope and complexity of the solution, with flexible options to meet budget requirements.

CONCLUSION
We are committed to delivering a solution that meets your specific needs and exceeds expectations. We look forward to the opportunity to discuss this proposal in detail.".

Definition template_letter : pystr := py "[Date]

[Recipient Name]
[Recipient Title]
[Company/Organization Name]
[Address]

Dear [Recipient Name/Title],

I hope this letter finds you well. I am writing to address the matter outlined below:

{prompt}

I believe this correspondence will help clarify the situation and provide the necessary information for your consideration. Please find the relevant details and context provided above.

I would appreciate your attention to this matter and look forward to your response. Should you require any additional information or clarification, please do not hesitate to contact me.

Thank you for your time and consideration of this request.

Sincerely,

[Your Name]
[Your Title]
[Your Contact Information]".

Definition template_document : pystr := py "PROFESSIONAL DOCUMENT

OVERVIEW
This document has been prepared to address the requirements and specifications outlined in your request: {prompt}

MAIN CONTENT
Based on the information provided, this document covers the key areas of focus and provides comprehensive coverage of the relevant topics.

The content has been structured to ensure clarity and accessibility, with logical organization and professional presentation throughout.

KEY POINTS
• Comprehensive coverage of specified requirements
• Professional formatting and presentation
• Clear and concise language appropriate for the intended audience
• Actionable recommendations and next steps where applicable

CONCLUSION
This document provides a solid foundation for moving forward with the outlined objectives and requirements. Please review the content and let me know if any adjustments or additional information are needed.

Thank you for the opportunity to prepare this document.".

Definition templates : list (pystr * pystr) := [
  (py "cover_letter", template_cover_letter);
  (py "resume", template_resume);
  (py "proposal", template_proposal);
  (py "letter", template_letter);
  (py "document", template_document)
].

(** The note appended in template mode. *)
Definition note : pystr := py "

---
Note: This document was generated using template mode. For enhanced AI-generated content, configure an API token in Streamlit secrets.".

(** ** str.format(prompt=...)

    [fmt t field] formats the rest [t] of the format string; [field] holds
    the (reversed) text of the replacement field being read, if any.
    Literal text is copied, a doubled brace gives one brace and the field
    [{prompt}] gives the argument.  The templates use no other field; for
    one the model raises, as Python does for a name that was not passed. *)
Definition ValueError (msg : string) : exn := Exn OtherException (py msg).

Definition ocons (c : codepoint) (o : outcome pystr) : outcome pystr :=
  match o with
  | Returned s => Returned (c :: s)
  | Raised e => Raised e
  end.

Definition oapp (p : pystr) (o : outcome pystr) : outcome pystr :=
  match o with
  | Returned s => Returned (p ++ s)
  | Raised e => Raised e
  end.

Definition lbrace : codepoint := 123.
Definition rbrace : codepoint := 125.

Fixpoint fmt (prompt : pystr) (t : pystr) (field : option pystr) : outcome pystr :=
  match field with
  | None =>
      match t with
      | [] => Returned []
      | c :: r =>
          if c =? lbrace then
            match r with
            | [] => Raised (ValueError "Single '{' encountered in format string")
            | c' :: r' =>
                if c' =? lbrace then ocons lbrace (fmt prompt r' None)
                else fmt prompt r (Some [])
            end
          else if c =? rbrace then
            match r with
            | c' :: r' =>
                if c' =? rbrace then ocons rbrace (fmt prompt r' None)
                else Raised (ValueError "Single '}' encountered in format string")
            | [] => Raised (ValueError "Single '}' encountered in format string")
            end
          else ocons c (fmt prompt r None)
      end
  | Some name =>
      match t with
      | [] => Raised (ValueError "expected '}' before end of string")
      | c :: r =>
          if c =? rbrace then
            if pystr_eqb (rev name) (py "prompt") then oapp prompt (fmt prompt r None)
            else Raised (Exn OtherException (py "'" ++ rev name ++ py "'"))
          else if c =? lbrace then
            Raised (ValueError "unexpected '{' in field name")
          else fmt prompt r (Some (c :: name))
      end
  end.

(** [template.format(prompt=prompt)] *)
Definition format (template prompt : pystr) : outcome pystr :=
  fmt prompt template None.

Section Program.

Variable R : PyRuntime.

Local Open Scope monad_scope.

(** *** Built-in operations on decoded values *)

Definition builtin {A} (err : builtin_error) : outcome A :=
  Raised (Exn OtherException (builtin_error_str R err)).

(** [needle in v] *)
Definition py_in (needle : pystr) (v : pyval) : outcome bool :=
  match v with
  | PDict d => Returned (existsb (fun kv => pystr_eqb (fst kv) needle) d)
  | PList l =>
      Returned (existsb (fun x => match x with
                                  | PStr s => pystr_eqb s needle
                                  | _ => false
                                  end) l)
  | PStr s => Returned (contains s needle)
  | _ => builtin (NotIterable v)
  end.

(** [len(v)] *)
Definition py_len (v : pyval) : outcome Z :=
  match v with
  | PDict d => Returned (Z.of_nat (length d))
  | PList l => Returned (Z.of_nat (length l))
  | PStr s => Returned (Z.of_nat (length s))
  | _ => builtin (NoLen v)
  end.

(** [d[key]] for the dictionary of a decoded JSON object. *)
Fixpoint lookup (d : list (pystr * pyval)) (key : pystr) : option pyval :=
  match d with
  | [] => None
  | (k, v) :: rest => if pystr_eqb k key then Some v else lookup rest key
  end.

(** [v[k]]: the keys of a decoded object are strings, so an integer
    subscript on a dictionary is a missing key. *)
Definition py_getitem (v : pyval) (k : subscript) : outcome pyval :=
  match v, k with
  | PDict d, KStr key =>
      match lookup d key with
      | Some x => Returned x
      | None => builtin (KeyError k)
      end
  | PDict _, KInt _ => builtin (KeyError k)
  | PList l, KInt 0%Z =>
      match l with
      | x :: _ => Returned x
      | [] => builtin (IndexError v)
      end
  | PStr s, KInt 0%Z =>
      match s with
      | c :: _ => Returned (PStr [c])
      | [] => builtin (IndexError v)
      end
  | PList l, KInt z =>
      match nth_error (if (z <? 0)%Z then rev l else l)
                      (Z.to_nat (if (z <? 0)%Z then - z - 1 else z)) with
      | Some x => Returned x
      | None => builtin (IndexError v)
      end
  | PStr s, KInt z =>
      match nth_error (if (z <? 0)%Z then rev s else s)
                      (Z.to_nat (if (z <? 0)%Z then - z - 1 else z)) with
      | Some c => Returned (PStr [c])
      | None => builtin (IndexError v)
      end
  | _, _ => builtin (BadSubscript v k)
  end.

(** [v.strip()] *)
Definition py_strip (v : pyval) : outcome pystr :=
  match v with
  | PStr s => Returned (strip s)
  | _ => builtin (AttributeError v (py "strip"))
  end.

(** [v.get(key, default)] *)
Definition py_get (v : pyval) (key : pystr) (default : pyval) : outcome pyval :=
  match v with
  | PDict d =>
      match lookup d key with
      | Some x => Returned x
      | None => Returned default
      end
  | _ => builtin (AttributeError v (py "get"))
  end.

(** A value inside an f-string. *)
Definition fstr (v : pyval) : pystr :=
  match v with
  | PStr s => s
  | _ => py_str R v
  end.

(** [s.isupper()]: no lower-case or title-case character and at least
    one upper-case character. *)
Fixpoint isupper_scan (s : pystr) (cased : bool) : bool :=
  match s with
  | [] => cased
  | ch :: rest =>
      if cp_islower R ch || cp_istitle R ch then false
      else if negb cased && cp_isupper R ch then isupper_scan rest true
      else isupper_scan rest cased
  end.

Definition isupper (s : pystr) : bool :=
  match s with
  | [] => false
  | [ch] => cp_isupper R ch
  | _ => isupper_scan s false
  end.

(** *** PDFGenerator.create_pdf *)

(** [Paragraph(text, style)]: ReportLab parses the markup of the text
    when the paragraph is made, and raises on a text it rejects. *)
Definition new_paragraph (text : pystr) (style : style_name) : M flowable :=
  W <- world;;
  match paragraph_error W text style with
  | Some e => raise e
  | None => ret (Paragraph text style)
  end.

(** The test of the loop on [para.strip()]. *)
Definition looks_like_heading (stripped : pystr) : bool :=
  (N.of_nat (length stripped) <? 80)
  && (isupper stripped || endswith stripped (py ":")).

(** The body of [for para in paragraphs]. *)
Definition add_paragraph (story : list flowable) (para : pystr) : M (list flowable) :=
  if truthy (strip para) then
    p <- (if looks_like_heading (strip para)
          then new_paragraph (strip para) CustomHeader
          else new_paragraph (strip para) CustomBody);;
    ret (story ++ [p; Spacer 1 12])
  else ret story.

Definition create_pdf (content document_type : pystr) : M (option (list Byte.byte)) :=
  try_except
    (title <- new_paragraph (clean_text_for_pdf document_type) CustomTitle;;
     let story := [title; Spacer 1 20] in
     let content := clean_text_for_pdf content in
     let paragraphs := split_blank content in
     story <- for_each add_paragraph paragraphs story;;
     W <- world;;
     footer <- new_paragraph
                 (py "Generated on " ++ now_strftime W (py "%B %d, %Y")
                  ++ py " using AI PDF Generator") Normal;;
     let story := story ++ [Spacer 1 30; footer] in
     pdf <- lift (doc_build W story);;
     ret (Some pdf))
    (fun e =>
       show (st_error (py "PDF Generation Error: " ++ exn_str e));;;
       ret None).

(** *** AIClient.generate_with_groq *)

Definition generate_with_groq (prompt document_type : pystr) : M pystr :=
  W <- world;;
  if negb (truthy (GROQ_API_TOKEN W)) then
    ret (py "Error: No Groq API token configured. Please add GROQ_TOKEN to Streamlit secrets.")
  else
    try_except
      (let system_prompt :=
         dict_get system_prompts (py_lower R document_type)
                  (dict_get system_prompts (py "document") []) in
       let payload := {|
         model := py "mixtral-8x7b-32768";
         messages := [
           (py "system", system_prompt);
           (py "user", py "Please create a professional " ++ document_type
                       ++ py " based on the following requirements:

" ++ prompt)];
         max_tokens := 1500;
         temperature := py "0.7";
         top_p := 1;
         stream := false |} in
       let headers := [
         (py "Authorization", py "Bearer " ++ GROQ_API_TOKEN W);
         (py "Content-Type", py "application/json")] in
       response <- lift (requests_post W GROQ_API_URL payload headers 30);;
       if (status_code response =? 200)%Z then
         result <- lift (json response);;
         has_choices <- lift (py_in (py "choices") result);;
         nonempty <- (if has_choices then
                        choices <- lift (py_getitem result (KStr (py "choices")));;
                        n <- lift (py_len choices);;
                        ret (0 <? n)%Z
                      else ret false);;
         if nonempty then
           choices <- lift (py_getitem result (KStr (py "choices")));;
           choice <- lift (py_getitem choices (KInt 0));;
           message <- lift (py_getitem choice (KStr (py "message")));;
           content <- lift (py_getitem message (KStr (py "content")));;
           lift (py_strip content)
         else ret (py "Error: Invalid response format from API")
       else
         let error_msg := py "API Error " ++ str_of_int (status_code response) in
         error_msg <-
           try_except
             (error_detail <- lift (json response);;
              has_error <- lift (py_in (py "error") error_detail);;
              if has_error then
                error <- lift (py_getitem error_detail (KStr (py "error")));;
                message <- lift (py_get error (py "message") (PStr (py "Unknown error")));;
                ret (error_msg ++ py ": " ++ fstr message)
              else ret error_msg)
             (fun _ =>
                body <- lift (text response);;
                ret (error_msg ++ py ": " ++ body));;
         ret (py "Error: " ++ error_msg))
      (fun e =>
         match exn_cls e with
         | RequestsTimeout => ret (py "Error: Request timed out. Please try again.")
         | RequestsConnectionError =>
             ret (py "Error: Connection failed. Please check your internet connection.")
         | OtherException => ret (py "Error: " ++ exn_str e)
         end).

(** *** AIClient.generate_with_template *)

Definition generate_with_template (prompt document_type : pystr) : M pystr :=
  let base_template :=
    dict_get templates (py_lower R document_type) template_document in
  formatted_content <- lift (format base_template prompt);;
  ret (formatted_content ++ note).

(** *** AIClient.generate_content *)

Definition generate_content (prompt document_type : pystr) (use_api : bool) : M pystr :=
  W <- world;;
  if use_api && truthy (GROQ_API_TOKEN W) then
    result <- generate_with_groq prompt document_type;;
    if startswith result (py "Error:") then
      show (st_warning (py "API generation failed, falling back to template mode..."));;;
      generate_with_template prompt document_type
    else ret result
  else generate_with_template prompt document_type.

End Program.


(** ** Start-up: get_api_tokens *)

Local Open Scope monad_scope.

(** [st.secrets] as the function sees it: the mapping of the secrets, or
    the exception of a store that is not there. *)
Definition get_api_tokens (secrets : outcome (list (pystr * pystr))) : M (pystr * pystr) :=
  try_except
    (store <- lift secrets;;
     let groq_token := dict_get store (py "GROQ_TOKEN") [] in
     let hf_token := dict_get store (py "HF_TOKEN") [] in
     ret (groq_token, hf_token))
    (fun e =>
       show (st_warning (py "⚠️ No secrets configured. Using template mode only."));;;
       ret ([], [])).

(** ** The connectivity probe: AIClient.test_groq_connection *)

(** The JSON body of the probe; it has no sampling parameters. *)
Record probe_payload := {
  probe_model : pystr;
  probe_messages : list (pystr * pystr);
  probe_max_tokens : Z
}.

(** The world, and the answer of [requests.post] to the probe. *)
Record ProbeWorld := {
  probe_world : World;
  probe_post : pystr -> probe_payload -> list (pystr * pystr) -> Z -> outcome response
}.

Definition obind {A B} (o : outcome A) (k : A -> outcome B) : outcome B :=
  match o with
  | Returned a => k a
  | Raised e => Raised e
  end.

(** [try: body except Exception as e: handler e], without a page. *)
Definition otry {A} (body : outcome A) (handler : exn -> outcome A) : outcome A :=
  match body with
  | Returned a => Returned a
  | Raised e => handler e
  end.

Definition probe_request : probe_payload := {|
  probe_model := py "mixtral-8x7b-32768";
  probe_messages := [(py "user", py "Hello")];
  probe_max_tokens := 10
|}.

Definition test_groq_connection (P : ProbeWorld) : outcome (bool * pystr) :=
  if negb (truthy (GROQ_API_TOKEN (probe_world P))) then
    Returned (false, py "No API token")
  else
    otry
      (let headers := [
         (py "Authorization", py "Bearer " ++ GROQ_API_TOKEN (probe_world P));
         (py "Content-Type", py "application/json")] in
       obind (probe_post P GROQ_API_URL probe_request headers 10)
             (fun response =>
                Returned ((status_code response =? 200)%Z,
                          py "Status: " ++ str_of_int (status_code response))))
      (fun e => Returned (false, exn_str e)).

(** ** check_api_status

    The client it builds is built as in main, which has built one before
    it calls this function; the construction is taken to succeed. *)

(** The values of the status dictionary. *)
Inductive status_value := SBool (b : bool) | SStr (s : pystr).

(** [d[key] = value] *)
Fixpoint dict_set {A} (d : list (pystr * A)) (key : pystr) (value : A) : list (pystr * A) :=
  match d with
  | [] => [(key, value)]
  | (k, v) :: rest =>
      if pystr_eqb k key then (k, value) :: rest
      else (k, v) :: dict_set rest key value
  end.

Definition check_api_status (P : ProbeWorld) : list (pystr * status_value) :=
  let status := [] in
  if truthy (GROQ_API_TOKEN (probe_world P)) then
    match test_groq_connection P with
    | Returned (is_working, message) =>
        let status := dict_set status (py "groq") (SBool is_working) in
        dict_set status (py "groq_message") (SStr message)
    | Raised e =>
        let status := dict_set status (py "groq") (SBool false) in
        dict_set status (py "groq_message") (SStr (exn_str e))
    end
  else
    let status := dict_set status (py "groq") (SBool false) in
    dict_set status (py "groq_message") (SStr (py "No token configured")).

(** ** The parts of main that decide what is generated *)

Definition status_truth (v : status_value) : bool :=
  match v with
  | SBool b => b
  | SStr s => truthy s
  end.

(** [use_api]: the check box of the sidebar when the probe succeeded,
    [False] otherwise. *)
Definition main_use_api (api_status : list (pystr * status_value)) (checkbox : bool) : bool :=
  if status_truth (dict_get api_status (py "groq") (SBool false)) then checkbox
  else false.

Definition document_types : list (pystr * pystr) := [
  (py "Cover Letter", py "cover_letter");
  (py "Resume", py "resume");
  (py "Business Proposal", py "proposal");
  (py "Formal Letter", py "letter");
  (py "Custom Document", py "document")
].

(** The test of the two buttons: [btn and prompt.strip()]. *)
Definition requested (btn : bool) (prompt : pystr) : bool :=
  btn && truthy (strip prompt).

(** The name of the download: the selected type with its spaces replaced,
    the time stamp and the extension. *)
Definition download_filename (W : World) (selected_doc_type : pystr) : pystr :=
  let timestamp := now_strftime W (py "%Y%m%d_%H%M%S") in
  replace 32 95 selected_doc_type ++ py "_" ++ timestamp ++ py ".pdf".
(** ** Worlds for examples *)

(** A world with the given credential in which every request gets the
    given result, ReportLab accepts every paragraph and lays every story
    out to an empty document. *)
Definition world_with (token : pystr) (reply : outcome response) : World := {|
  GROQ_API_TOKEN := token;
  requests_post := fun _ _ _ _ => reply;
  now_strftime := fun _ => py "January 01, 2025";
  paragraph_error := fun _ _ => None;
  doc_build := fun _ => Returned []
|}.

(** The body of a well-formed chat completion with one choice. *)
Definition completion (content : pystr) : pyval :=
  PDict [(py "choices",
          PList [PDict [(py "message", PDict [(py "content", PStr content)])]])].

Definition http (status : Z) (body : pyval) : outcome response :=
  Returned {| status_code := status; json := Returned body; text := Returned [] |}.

(** What the five replacements do to one character. *)
Definition clean_char (c : codepoint) : codepoint :=
  if c =? 0x2019 then 39
  else if (c =? 0x201c) || (c =? 0x201d) then 34
  else if (c =? 0x2013) || (c =? 0x2014) then 45
  else c.


(** ** The placeholder of a template *)

Definition placeholder : pystr := py "{prompt}".

Definition brace_free (s : pystr) : bool :=
  forallb (fun c => negb (c =? lbrace) && negb (c =? rbrace)) s.

(** The text of a template up to its first brace, and the text after the
    placeholder that starts there. *)
Fixpoint before_placeholder (t : pystr) : pystr :=
  match t with
  | [] => []
  | c :: r => if c =? lbrace then [] else c :: before_placeholder r
  end.

Definition after_placeholder (t : pystr) : pystr :=
  skipn (length (before_placeholder t) + length placeholder) t.

(** The template with the prompt put verbatim in the place of the
    placeholder. *)
Definition fill (t prompt : pystr) : pystr :=
  before_placeholder t ++ prompt ++ after_placeholder t.

(** A template is text, the placeholder once, and text; it does not open
    with the error prefix. *)
Definition template_ok (t : pystr) : bool :=
  pystr_eqb t (before_placeholder t ++ placeholder ++ after_placeholder t)
  && brace_free (before_placeholder t) && brace_free (after_placeholder t)
  && negb (startswith (before_placeholder t) (py "Error:"))
  && (length (py "Error:") <=? length (before_placeholder t))%nat.

(** The template selected for a document type. *)
Definition base_template (R : PyRuntime) (document_type : pystr) : pystr :=
  dict_get templates (py_lower R document_type) template_document.

(** [a] is [b] up to the case of its ASCII letters. *)
Definition same_letters (a b : pystr) : Prop :=
  Forall (fun c => c < 128) a /\ map ascii_tolower a = b.

(** ** Methods that leave the page alone *)

Definition silent {A} (m : M A) : Prop :=
  forall W page, snd (m W page) = page.

(** What a method returns in a world, when it returns. *)
Definition returns {A} (W : World) (P : A -> Prop) (m : M A) : Prop :=
  forall page a page', m W page = (Returned a, page') -> P a.

(** Methods that return whatever the world does. *)
Definition total {A} (m : M A) : Prop :=
  forall W page, exists a page', m W page = (Returned a, page').

(** The prefix by which generate_content recognises a failed remote call. *)
Definition is_error (s : pystr) : Prop := startswith s (py "Error:") = true.

(** Every request of the world is answered, and with this property. *)
Definition every_reply (W : World) (P : response -> Prop) : Prop :=
  forall url payload headers timeout,
    exists r, requests_post W url payload headers timeout = Returned r /\ P r.

(** The page after the fallback notice of generate_content. *)
Definition with_fallback_notice (page : list st_call) : list st_call :=
  page ++ [st_warning (py "API generation failed, falling back to template mode...")].

(** ** Headings *)

(** The rule for a trimmed paragraph unit: under 80 characters, and fully
    upper-case or ending with a colon. *)
Definition heading_rule (R : PyRuntime) (unit : pystr) : Prop :=
  (length unit < 80)%nat
  /\ (isupper R unit = true \/ exists body, unit = body ++ py ":").

(** A text without a blank-line separator inside it or half of one at
    its end. *)
Fixpoint unbroken (p : pystr) : bool :=
  match p with
  | [] => true
  | c :: t =>
      match t with
      | d :: _ => negb ((c =? 10) && (d =? 10)) && unbroken t
      | [] => negb (c =? 10)
      end
  end.

(** The header of the second section of the proposal template and the
    line under it, up to the placeholder. *)
Definition executive_summary_opening : pystr := py "EXECUTIVE SUMMARY
This proposal outlines a comprehensive solution to address the requirements specified: ".

(** The flowables the loop of create_pdf adds for one paragraph unit. *)
Definition unit_flowables (R : PyRuntime) (para : pystr) : list flowable :=
  if truthy (strip para) then
    [Paragraph (strip para)
       (if looks_like_heading R (strip para) then CustomHeader else CustomBody);
     Spacer 1 12]
  else [].

(** The story create_pdf hands to the layout: title, spacer, the units in
    order, each followed by a spacer, and the footer after a last spacer. *)
Definition story_of (R : PyRuntime) (W : World) (content document_type : pystr)
  : list flowable :=
  [Paragraph (clean_text_for_pdf document_type) CustomTitle; Spacer 1 20]
  ++ flat_map (unit_flowables R) (split_blank (clean_text_for_pdf content))
  ++ [Spacer 1 30;
      Paragraph (py "Generated on " ++ now_strftime W (py "%B %d, %Y")
                 ++ py " using AI PDF Generator") Normal].

(** ReportLab accepts every paragraph. *)
Definition accepts_all (W : World) : Prop :=
  forall text style, paragraph_error W text style = None.

(** The template-mode note without the blank line in front of it. *)
Definition note_unit : pystr := py "---
Note: This document was generated using template mode. For enhanced AI-generated content, configure an API token in Streamlit secrets.".

(** The text after the placeholder ends with a character that is not a
    newline. *)
Definition ends_in_text (t : pystr) : bool :=
  match rev (after_placeholder t) with
  | c :: _ => negb (c =? 10)
  | [] => false
  end.

(** The five characters clean_text_for_pdf replaces. *)
Definition handled (c : codepoint) : Prop :=
  c = 0x2019 \/ c = 0x201c \/ c = 0x201d \/ c = 0x2013 \/ c = 0x2014.

(** Every request of the world fails with the exception. *)
Definition every_request_raises (W : World) (e : exn) : Prop :=
  forall url payload headers timeout,
    requests_post W url payload headers timeout = Raised e.

(** An answer with status 429 and an [error] object, for examples. *)
Definition rate_limit_details : list (pystr * pyval) :=
  [(py "message", PStr (py "Rate limit reached"))].

Definition rate_limit_reply : response := {|
  status_code := 429;
  json := Returned (PDict [(py "error", PDict rate_limit_details)]);
  text := Returned []
|}.

(** What the world answers to the request of the probe. *)
Definition probe_answer (P : ProbeWorld) : outcome response :=
  probe_post P GROQ_API_URL probe_request
    [(py "Authorization", py "Bearer " ++ GROQ_API_TOKEN (probe_world P));
     (py "Content-Type", py "application/json")] 10.

(** The probe gets an answer with status 200. *)
Definition probe_succeeds (P : ProbeWorld) : Prop :=
  exists r, probe_answer P = Returned r /\ status_code r = 200%Z.

(** A probe world for examples: the given credential, and the given
    answer to the probe. *)
Definition probe_with (token : pystr) (reply : outcome response) : ProbeWorld := {|
  probe_world := world_with token (http 200 (completion (py "Dear Sir")));
  probe_post := fun _ _ _ _ => reply
|}.

(** The page after the warning of get_api_tokens. *)
Definition with_secrets_warning (page : list st_call) : list st_call :=
  page ++ [st_warning (py "⚠️ No secrets configured. Using template mode only.")].

(** The text at [choices[0].message.content] of a body of the expected
    shape: an object whose [choices] is a list that starts with an object
    whose [message] is an object whose [content] is a string. *)
Definition first_choice_content (body : pyval) : option pystr :=
  match body with
  | PDict d =>
      match lookup d (py "choices") with
      | Some (PList (PDict choice :: _)) =>
          match lookup choice (py "message") with
          | Some (PDict message) =>
              match lookup message (py "content") with
              | Some (PStr content) => Some content
              | _ => None
              end
          | _ => None
          end
      | _ => None
      end
  | _ => None
  end.

(** An answer with status 200 and one choice, for examples. *)
Definition greeting_reply : response := {|
  status_code := 200;
  json := Returned (completion (py " Dear Sir "));
  text := Returned []
|}.

(** ** The paragraphs of create_pdf

    The paragraph a unit asks ReportLab for, and all the paragraphs
    create_pdf asks for, in the order in which it makes them: the title,
    the units, the footer. *)
Definition unit_requests (R : PyRuntime) (para : pystr) : list (pystr * style_name) :=
  if truthy (strip para) then
    [(strip para,
      if looks_like_heading R (strip para) then CustomHeader else CustomBody)]
  else [].

Definition paragraph_requests (R : PyRuntime) (W : World) (content document_type : pystr)
  : list (pystr * style_name) :=
  (clean_text_for_pdf document_type, CustomTitle)
  :: flat_map (unit_requests R) (split_blank (clean_text_for_pdf content))
  ++ [(py "Generated on " ++ now_strftime W (py "%B %d, %Y")
       ++ py " using AI PDF Generator", Normal)].

(** The exception of the first paragraph ReportLab rejects, if any. *)
Fixpoint first_rejection (W : World) (requests : list (pystr * style_name)) : option exn :=
  match requests with
  | [] => None
  | (text, style) :: rest =>
      match paragraph_error W text style with
      | Some e => Some e
      | None => first_rejection W rest
      end
  end.

(** The page after the diagnostic of create_pdf. *)
Definition with_pdf_error (page : list st_call) (e : exn) : list st_call :=
  page ++ [st_error (py "PDF Generation Error: " ++ exn_str e)].

(** The body of a completion as the endpoint sends it, with the fields
    around the text, and the answer that carries it, for examples. *)
Definition chat_completion_body : pyval :=
  PDict [
    (py "id", PStr (py "chatcmpl-123"));
    (py "object", PStr (py "chat.completion"));
    (py "created", PInt 1700000000);
    (py "model", PStr (py "mixtral-8x7b-32768"));
    (py "choices", PList [
       PDict [(py "index", PInt 0);
              (py "message", PDict [(py "role", PStr (py "assistant"));
                                    (py "content", PStr (py "  Dear Sir,
"))]);
              (py "finish_reason", PStr (py "stop"))]]);
    (py "usage", PDict [(py "prompt_tokens", PInt 12);
                        (py "completion_tokens", PInt 3);
                        (py "total_tokens", PInt 15)])].

Definition chat_completion_reply : response := {|
  status_code := 200;
  json := Returned chat_completion_body;
  text := Returned []
|}.

(** ** The request of generate_with_groq

    The body and the headers of a chat-completion request with the given
    system prompt. *)
Definition chat_request (system_prompt document_type prompt : pystr) : chat_payload := {|
  model := py "mixtral-8x7b-32768";
  messages := [
    (py "system", system_prompt);
    (py "user", py "Please create a professional " ++ document_type
                ++ py " based on the following requirements:

" ++ prompt)];
  max_tokens := 1500;
  temperature := py "0.7";
  top_p := 1;
  stream := false
|}.

Definition chat_headers (W : World) : list (pystr * pystr) := [
  (py "Authorization", py "Bearer " ++ GROQ_API_TOKEN W);
  (py "Content-Type", py "application/json")].

(** Two worlds with the same credential that answer this one request in
    the same way. *)
Definition same_answer (W W' : World) (request : chat_payload) : Prop :=
  GROQ_API_TOKEN W' = GROQ_API_TOKEN W
  /\ requests_post W' GROQ_API_URL request (chat_headers W) 30
     = requests_post W GROQ_API_URL request (chat_headers W) 30.

(** A world that answers the request carrying the given system prompt
    with status 200 and the given text, and any other request with status
    400; for examples. *)
Definition world_expecting (system_prompt text : pystr) : World := {|
  GROQ_API_TOKEN := py "key";
  requests_post := fun _ payload _ _ =>
    match messages payload with
    | (_, sent) :: _ =>
        if pystr_eqb sent system_prompt then http 200 (completion text)
        else http 400 PNone
    | [] => http 400 PNone
    end;
  now_strftime := fun _ => py "January 01, 2025";
  paragraph_error := fun _ _ => None;
  doc_build := fun _ => Returned []
|}.

(** Methods that do not look at the world. *)
Definition worldless {A} (m : M A) : Prop :=
  forall W W' page, m W page = m W' page.

(** No paragraph of the story in the header style holds the text. *)
Definition no_header_holds (text : pystr) (story : list flowable) : bool :=
  forallb (fun f => match f with
                    | Paragraph t CustomHeader => negb (contains t text)
                    | _ => true
                    end) story.
(** * Properties *)

(** ** Strings *)

Lemma startswith_nil (s : pystr) : startswith s [] = true.
Proof. now destruct s. Qed.

Lemma startswith_app (a b p : pystr) :
  startswith a p = true -> startswith (a ++ b) p = true.
Proof.
  revert a; induction p as [|x p IH]; intros a.
  - intros _. apply startswith_nil.
  - destruct a as [|c a]; simpl; [discriminate|].
    intros H; apply andb_true_iff in H as [H1 H2].
    now rewrite H1, (IH _ H2).
Qed.

Lemma startswith_app_long (a b p : pystr) :
  (length p <= length a)%nat -> startswith (a ++ b) p = startswith a p.
Proof.
  revert a; induction p as [|x p IH]; intros a H.
  - now rewrite !startswith_nil.
  - destruct a as [|c a]; simpl in *; [lia|].
    now rewrite IH by lia.
Qed.

(** ** clean_text_for_pdf *)

Ltac eqb_cases c :=
  repeat match goal with
         | |- context [c =? ?k] => destruct (N.eqb_spec c k); subst; simpl
         end.

Lemma clean_text_for_pdf_map (text : pystr) :
  clean_text_for_pdf text = map clean_char text.
Proof.
  unfold clean_text_for_pdf, replace.
  rewrite !map_map. apply map_ext. intros c. unfold clean_char.
  eqb_cases c; try reflexivity; try lia.
Qed.

Lemma clean_char_idempotent (c : codepoint) :
  clean_char (clean_char c) = clean_char c.
Proof.
  unfold clean_char at 2. eqb_cases c; try reflexivity.
Qed.

Lemma clean_text_for_pdf_app (a b : pystr) :
  clean_text_for_pdf (a ++ b) = clean_text_for_pdf a ++ clean_text_for_pdf b.
Proof. rewrite !clean_text_for_pdf_map. apply map_app. Qed.

(** The characters the function handles are gone from its result, and a
    character it does not handle stays where it is. *)
Lemma clean_text_for_pdf_handled (text : pystr) (c : codepoint) :
  In c (clean_text_for_pdf text) ->
  c <> 0x2019 /\ c <> 0x201c /\ c <> 0x201d /\ c <> 0x2013 /\ c <> 0x2014.
Proof.
  rewrite clean_text_for_pdf_map, in_map_iff. intros (x & <- & _).
  unfold clean_char. eqb_cases x; repeat split; lia.
Qed.

(** C2: the left single quotation mark U+2018 is a directional quotation
    mark, and clean_text_for_pdf leaves it in its result: the text
    [‘a’] comes out as [‘a'], the right mark replaced and the left one
    still there. *)
Theorem clean_text_for_pdf_keeps_left_single_quote :
  clean_text_for_pdf (py "‘a’") = [0x2018; 97; 39]
  /\ In 0x2018 (clean_text_for_pdf (py "‘a’")).
Proof. split; [reflexivity | now left]. Qed.

(** C9: clean_text_for_pdf is idempotent and keeps the number of
    characters of its input. *)
Theorem clean_text_for_pdf_idempotent_length (text : pystr) :
  clean_text_for_pdf (clean_text_for_pdf text) = clean_text_for_pdf text
  /\ length (clean_text_for_pdf text) = length text.
Proof.
  rewrite !clean_text_for_pdf_map. split.
  - rewrite map_map. apply map_ext. exact clean_char_idempotent.
  - apply length_map.
Qed.

(** ** The monad *)

Lemma silent_ret {A} (a : A) : silent (ret a).
Proof. now intros W page. Qed.

Lemma silent_lift {A} (o : outcome A) : silent (lift o).
Proof. now intros W page. Qed.

Lemma silent_raise {A} (e : exn) : silent (@raise A e).
Proof. now intros W page. Qed.

Lemma silent_world : silent world.
Proof. now intros W page. Qed.

Lemma silent_bind {A B} (m : M A) (k : A -> M B) :
  silent m -> (forall a, silent (k a)) -> silent (bind m k).
Proof.
  intros Hm Hk W page. unfold bind. specialize (Hm W page).
  destruct (m W page) as [[a|e] page']; simpl in *; subst; [apply Hk | easy].
Qed.

Lemma silent_try_except {A} (m : M A) (h : exn -> M A) :
  silent m -> (forall e, silent (h e)) -> silent (try_except m h).
Proof.
  intros Hm Hh W page. unfold try_except. specialize (Hm W page).
  destruct (m W page) as [[a|e] page']; simpl in *; subst; [easy | apply Hh].
Qed.

Lemma silent_for_each {A B} (body : B -> A -> M B) (xs : list A) :
  (forall acc x, silent (body acc x)) -> forall acc, silent (for_each body xs acc).
Proof.
  intros Hb; induction xs as [|x xs IH]; intros acc; simpl.
  - apply silent_ret.
  - apply silent_bind; auto.
Qed.

Lemma returns_ret {A} W (P : A -> Prop) (a : A) : P a -> returns W P (ret a).
Proof. intros H page a' page' [= <- _]. exact H. Qed.

Lemma returns_bind {A B} W (P : B -> Prop) (m : M A) (k : A -> M B) :
  (forall a, returns W P (k a)) -> returns W P (bind m k).
Proof.
  intros Hk page b page'. unfold bind.
  destruct (m W page) as [[a|e] page1]; [apply Hk | discriminate].
Qed.

Lemma returns_bind_lift {A B} W (P : B -> Prop) (o : outcome A) (k : A -> M B) :
  (forall a, o = Returned a -> returns W P (k a)) -> returns W P (bind (lift o) k).
Proof.
  intros Hk page b page'. unfold bind, lift.
  destruct o as [a|e]; [now apply Hk | discriminate].
Qed.

Lemma returns_bind_world {B} W (P : B -> Prop) (k : World -> M B) :
  returns W P (k W) -> returns W P (bind world k).
Proof. intros Hk page b page'. apply Hk. Qed.

Lemma returns_try_except {A} W (P : A -> Prop) (m : M A) (h : exn -> M A) :
  returns W P m -> (forall e, returns W P (h e)) -> returns W P (try_except m h).
Proof.
  intros Hm Hh page a page'. unfold try_except.
  specialize (Hm page). destruct (m W page) as [[a'|e] page1].
  - intros [= <- <-]. now apply (Hm a' page1).
  - apply Hh.
Qed.

Lemma total_ret {A} (a : A) : total (ret a).
Proof. intros W page. now exists a, page. Qed.

Lemma total_bind {A B} (m : M A) (k : A -> M B) :
  total m -> (forall a, total (k a)) -> total (bind m k).
Proof.
  intros Hm Hk W page. unfold bind.
  destruct (Hm W page) as (a & page1 & ->). apply Hk.
Qed.

Lemma total_try_except {A} (m : M A) (h : exn -> M A) :
  (forall e, total (h e)) -> total (try_except m h).
Proof.
  intros Hh W page. unfold try_except.
  destruct (m W page) as [[a|e] page1]; [now exists a, page1 | apply Hh].
Qed.

(** A total, silent method returns a value and the page it was given. *)
Lemma total_silent_run {A} (m : M A) (W : World) (page : list st_call) :
  total m -> silent m -> exists a, m W page = (Returned a, page).
Proof.
  intros Ht Hs. destruct (Ht W page) as (a & page1 & E).
  specialize (Hs W page). rewrite E in Hs. simpl in Hs. subst. now exists a.
Qed.

Create HintDb silent.
#[local] Hint Resolve silent_ret silent_lift silent_raise silent_world
  silent_bind silent_try_except silent_for_each : silent.

(** ** Templates *)

Lemma pystr_eqb_eq (a b : pystr) : pystr_eqb a b = true <-> a = b.
Proof.
  revert b; induction a as [|x a IH]; intros [|y b]; simpl; try easy.
  rewrite andb_true_iff, N.eqb_eq, IH. split; [intros [-> ->] | intros [= -> ->]]; easy.
Qed.

Lemma fmt_literal (prompt pre t : pystr) :
  brace_free pre = true ->
  fmt prompt (pre ++ t) None = oapp pre (fmt prompt t None).
Proof.
  induction pre as [|c pre IH]; simpl.
  - intros _. now destruct (fmt prompt t None).
  - rewrite !andb_true_iff, !negb_true_iff. intros [[Hl Hr] Hpre].
    rewrite Hl, Hr, (IH Hpre). now destruct (fmt prompt t None).
Qed.

Lemma fmt_placeholder (prompt t : pystr) :
  fmt prompt (placeholder ++ t) None = oapp prompt (fmt prompt t None).
Proof. reflexivity. Qed.

Lemma format_fill (t prompt : pystr) :
  template_ok t = true -> format t prompt = Returned (fill t prompt).
Proof.
  unfold template_ok. rewrite !andb_true_iff, pystr_eqb_eq.
  intros [[[[Ht Hb] Ha] _] _]. unfold format, fill.
  remember (before_placeholder t) as pre eqn:Epre.
  remember (after_placeholder t) as post eqn:Epost.
  assert (Hpost : fmt prompt post None = Returned post).
  { pose proof (fmt_literal prompt post [] Ha) as H.
    rewrite app_nil_r in H. rewrite H. simpl. now rewrite app_nil_r. }
  rewrite Ht, fmt_literal, fmt_placeholder, Hpost by assumption.
  reflexivity.
Qed.

Lemma dict_get_cases {A} (d : list (pystr * A)) (key : pystr) (default : A) :
  (In (key, dict_get d key default) d)
  \/ (~ In key (map fst d) /\ dict_get d key default = default).
Proof.
  induction d as [|[k v] d IH]; simpl.
  - right. split; [tauto | reflexivity].
  - destruct (pystr_eqb k key) eqn:E.
    + apply pystr_eqb_eq in E as ->. now left; left.
    + destruct IH as [IH | [IH1 IH2]]; [now left; right |].
      right. split; [| exact IH2]. intros [-> | H]; [| tauto].
      assert (pystr_eqb key key = true) by now apply pystr_eqb_eq.
      congruence.
Qed.

Lemma templates_ok : forallb (fun kt => template_ok (snd kt)) templates = true.
Proof. vm_compute. reflexivity. Qed.

Lemma template_document_ok : template_ok template_document = true.
Proof. vm_compute. reflexivity. Qed.

Lemma base_template_ok (R : PyRuntime) (document_type : pystr) :
  template_ok (base_template R document_type) = true.
Proof.
  unfold base_template.
  pose proof templates_ok as H. rewrite forallb_forall in H.
  destruct (dict_get_cases templates (py_lower R document_type) template_document)
    as [Hin | [_ ->]].
  - exact (H _ Hin).
  - apply template_document_ok.
Qed.

(** ** generate_with_template *)

Lemma generate_with_template_run (R : PyRuntime) (prompt document_type : pystr)
      (W : World) (page : list st_call) :
  generate_with_template R prompt document_type W page
  = (Returned (fill (base_template R document_type) prompt ++ note), page).
Proof.
  unfold generate_with_template, bind, lift, ret. fold (base_template R document_type).
  now rewrite format_fill by apply base_template_ok.
Qed.

(** C1: template generation returns normally for every prompt and
    document type, and its result is a function of the two alone: it is
    the same in every world (credential, network, clock) and on every
    page, so two calls with the same arguments return the same string.
    The page is left as it was. *)
Theorem generate_with_template_total_deterministic
        (R : PyRuntime) (prompt document_type : pystr) :
  exists content : pystr,
    forall (W : World) (page : list st_call),
      generate_with_template R prompt document_type W page = (Returned content, page).
Proof.
  eexists. intros W page. apply generate_with_template_run.
Qed.

(** ** generate_with_groq *)

Ltac silent_step :=
  first [ apply silent_ret | apply silent_lift | apply silent_raise
        | apply silent_world | apply silent_try_except | apply silent_bind
        | match goal with
          | |- silent (if ?b then _ else _) => destruct b
          | |- silent (match ?x with _ => _ end) => destruct x
          end ].

Ltac silent_tac := repeat (intros; silent_step).

Lemma generate_with_groq_silent (R : PyRuntime) (prompt document_type : pystr) :
  silent (generate_with_groq R prompt document_type).
Proof. unfold generate_with_groq. silent_tac. Qed.

Lemma generate_with_groq_total (R : PyRuntime) (prompt document_type : pystr) :
  total (generate_with_groq R prompt document_type).
Proof.
  unfold generate_with_groq. apply total_bind.
  - intros W page. now exists W, page.
  - intros W. destruct (negb _); [apply total_ret |].
    apply total_try_except. intros e. destruct (exn_cls e); apply total_ret.
Qed.

(** The remote call never raises and shows nothing: it returns a string. *)
Lemma generate_with_groq_run (R : PyRuntime) (prompt document_type : pystr)
      (W : World) (page : list st_call) :
  exists result,
    generate_with_groq R prompt document_type W page = (Returned result, page).
Proof.
  apply total_silent_run;
    [apply generate_with_groq_total | apply generate_with_groq_silent].
Qed.

Lemma is_error_prefix (rest : pystr) : is_error (py "Error: " ++ rest).
Proof. apply startswith_app. reflexivity. Qed.

(** Whatever is raised while the request is made or its answer read, the
    handlers of generate_with_groq turn it into an error text. *)
Lemma groq_handlers_error (W : World) (e : exn) :
  returns W is_error
    (match exn_cls e with
     | RequestsTimeout => ret (py "Error: Request timed out. Please try again.")
     | RequestsConnectionError =>
         ret (py "Error: Connection failed. Please check your internet connection.")
     | OtherException => ret (py "Error: " ++ exn_str e)
     end).
Proof.
  destruct (exn_cls e); apply returns_ret;
    [reflexivity | reflexivity | apply is_error_prefix].
Qed.

(** A status other than 200 gives an error text. *)
Lemma generate_with_groq_status_error (R : PyRuntime) (prompt document_type : pystr)
      (W : World) :
  every_reply W (fun r => status_code r <> 200%Z) ->
  returns W is_error (generate_with_groq R prompt document_type).
Proof.
  intros H. unfold generate_with_groq. apply returns_bind_world.
  destruct (negb _); [now apply returns_ret |].
  apply returns_try_except; [| apply groq_handlers_error].
  apply returns_bind_lift. intros r Hr.
  match type of Hr with
  | requests_post W ?u ?p ?h ?t = _ => destruct (H u p h t) as (r' & Hr' & Hstatus)
  end.
  rewrite Hr in Hr'. injection Hr' as <-.
  apply Z.eqb_neq in Hstatus. rewrite Hstatus.
  apply returns_bind. intros msg. apply returns_ret, is_error_prefix.
Qed.

Lemma lookup_existsb (d : list (pystr * pyval)) (key : pystr) :
  existsb (fun kv => pystr_eqb (fst kv) key) d
  = match lookup d key with Some _ => true | None => false end.
Proof.
  induction d as [|[k v] d IH]; simpl; [reflexivity |].
  now destruct (pystr_eqb k key).
Qed.

(** A 200 answer whose object has no [choices], or an empty list of them,
    gives the invalid-format error text, and nothing is raised. *)
Lemma generate_with_groq_no_choices (R : PyRuntime) (prompt document_type : pystr)
      (W : World) (page : list st_call) :
  every_reply W (fun r => status_code r = 200%Z /\
     exists d, json r = Returned (PDict d) /\
       (lookup d (py "choices") = None
        \/ lookup d (py "choices") = Some (PList []))) ->
  truthy (GROQ_API_TOKEN W) = true ->
  generate_with_groq R prompt document_type W page
  = (Returned (py "Error: Invalid response format from API"), page).
Proof.
  intros H Htoken.
  unfold generate_with_groq, bind, world, try_except, lift, ret.
  rewrite Htoken. cbn [negb].
  match goal with
  | |- context [requests_post W ?u ?p ?h ?t] =>
      destruct (H u p h t) as (r & -> & Hstatus & d & Hjson & Hchoices)
  end.
  rewrite Hstatus, Hjson. cbn [Z.eqb Pos.eqb py_in py_getitem].
  rewrite lookup_existsb.
  destruct Hchoices as [-> | ->]; reflexivity.
Qed.

(** ** generate_content *)

Lemma generate_content_template_mode (R : PyRuntime) (prompt document_type : pystr)
      (use_api : bool) (W : World) (page : list st_call) :
  use_api = false \/ GROQ_API_TOKEN W = [] ->
  generate_content R prompt document_type use_api W page
  = generate_with_template R prompt document_type W page.
Proof.
  intros H. unfold generate_content, bind at 1, world.
  assert (use_api && truthy (GROQ_API_TOKEN W) = false) as ->; [| reflexivity].
  destruct H as [-> | ->]; [reflexivity | apply andb_false_r].
Qed.

Lemma generate_content_remote (R : PyRuntime) (prompt document_type : pystr)
      (W : World) (page page1 : list st_call) (result : pystr) :
  truthy (GROQ_API_TOKEN W) = true ->
  generate_with_groq R prompt document_type W page = (Returned result, page1) ->
  generate_content R prompt document_type true W page
  = if startswith result (py "Error:")
    then (Returned (fill (base_template R document_type) prompt ++ note),
          with_fallback_notice page1)
    else (Returned result, page1).
Proof.
  intros Htoken Hgroq. unfold generate_content, bind at 1, world.
  rewrite Htoken. cbn [andb]. unfold bind at 1. rewrite Hgroq.
  destruct (startswith result (py "Error:")); [| reflexivity].
  unfold bind, show. apply generate_with_template_run.
Qed.

Lemma generate_content_after_error (R : PyRuntime) (prompt document_type : pystr)
      (use_api : bool) (W : World) (page : list st_call) :
  returns W is_error (generate_with_groq R prompt document_type) ->
  exists page',
    generate_content R prompt document_type use_api W page
    = (Returned (fill (base_template R document_type) prompt ++ note), page').
Proof.
  intros Herr.
  destruct (use_api && truthy (GROQ_API_TOKEN W)) eqn:E.
  - apply andb_true_iff in E as [-> Htoken].
    destruct (generate_with_groq_run R prompt document_type W page) as (result & Hgroq).
    rewrite (generate_content_remote _ _ _ _ _ _ _ Htoken Hgroq).
    rewrite (Herr _ _ _ Hgroq). eauto.
  - exists page. rewrite generate_content_template_mode.
    + apply generate_with_template_run.
    + apply andb_false_iff in E as [-> | E]; [now left | right].
      now destruct (GROQ_API_TOKEN W).
Qed.

Lemma template_output_not_error (R : PyRuntime) (prompt document_type : pystr) :
  startswith (fill (base_template R document_type) prompt ++ note) (py "Error:") = false.
Proof.
  pose proof (base_template_ok R document_type) as H.
  unfold template_ok in H. rewrite !andb_true_iff, negb_true_iff in H.
  destruct H as [[_ Hne] Hlen]. apply Nat.leb_le in Hlen.
  unfold fill. rewrite <- !app_assoc. now rewrite startswith_app_long.
Qed.

(** C3: when every answer of the remote endpoint has a status other than
    200 (500, say), generate_content returns a string, and it is the string
    generate_with_template returns for the same prompt and document type. *)
Theorem generate_content_non_200_is_template
        (R : PyRuntime) (prompt document_type : pystr) (use_api : bool)
        (W : World) (page : list st_call) :
  every_reply W (fun r => status_code r <> 200%Z) ->
  exists content page',
    generate_content R prompt document_type use_api W page = (Returned content, page')
    /\ generate_with_template R prompt document_type W page = (Returned content, page).
Proof.
  intros H.
  destruct (generate_content_after_error R prompt document_type use_api W page)
    as (page' & E); [now apply generate_with_groq_status_error |].
  eexists _, page'. split; [exact E | apply generate_with_template_run].
Qed.

Example generate_content_non_200_example :
  every_reply (world_with (py "key") (http 500 PNone))
              (fun r => status_code r <> 200%Z)
  /\ exists content page',
      generate_content ascii_runtime (py "x") (py "resume") true
        (world_with (py "key") (http 500 PNone)) [] = (Returned content, page')
      /\ generate_with_template ascii_runtime (py "x") (py "resume")
           (world_with (py "key") (http 500 PNone)) [] = (Returned content, []).
Proof.
  assert (H : every_reply (world_with (py "key") (http 500 PNone))
                          (fun r => status_code r <> 200%Z)).
  { intros url payload headers timeout. eexists. split; [reflexivity | discriminate]. }
  split; [exact H |].
  exact (generate_content_non_200_is_template
           ascii_runtime (py "x") (py "resume") true _ [] H).
Defined.

(** C5, as the code has it: with a credential configured and the remote
    path preferred, a text returned by the remote call that starts with the
    prefix "Error:" (the word and the colon) is discarded, the fallback
    notice is shown and the template result is returned, whatever produced
    the text, including a completion received with status 200; any other
    text is returned as it is. *)
Theorem generate_content_error_prefix_falls_back
        (R : PyRuntime) (prompt document_type : pystr)
        (W : World) (page page1 : list st_call) (result : pystr) :
  truthy (GROQ_API_TOKEN W) = true ->
  generate_with_groq R prompt document_type W page = (Returned result, page1) ->
  (startswith result (py "Error:") = true ->
   exists content,
     generate_content R prompt document_type true W page
     = (Returned content, with_fallback_notice page1)
     /\ generate_with_template R prompt document_type W page = (Returned content, page))
  /\ (startswith result (py "Error:") = false ->
      generate_content R prompt document_type true W page = (Returned result, page1)).
Proof.
  intros Htoken Hgroq.
  rewrite (generate_content_remote _ _ _ _ _ _ _ Htoken Hgroq).
  split; intros ->; [| reflexivity].
  eexists. split; [reflexivity | apply generate_with_template_run].
Qed.

Example generate_content_error_prefix_example :
  truthy (GROQ_API_TOKEN
            (world_with (py "key") (http 200 (completion (py " Error: none found "))))) = true
  /\ generate_with_groq ascii_runtime (py "x") (py "letter")
       (world_with (py "key") (http 200 (completion (py " Error: none found ")))) []
     = (Returned (py "Error: none found"), [])
  /\ ((startswith (py "Error: none found") (py "Error:") = true ->
       exists content,
         generate_content ascii_runtime (py "x") (py "letter") true
           (world_with (py "key") (http 200 (completion (py " Error: none found ")))) []
         = (Returned content, with_fallback_notice [])
         /\ generate_with_template ascii_runtime (py "x") (py "letter")
              (world_with (py "key") (http 200 (completion (py " Error: none found ")))) []
            = (Returned content, []))
      /\ (startswith (py "Error: none found") (py "Error:") = false ->
          generate_content ascii_runtime (py "x") (py "letter") true
            (world_with (py "key") (http 200 (completion (py " Error: none found ")))) []
          = (Returned (py "Error: none found"), []))).
Proof.
  split; [reflexivity |]. split; [vm_compute; reflexivity |].
  apply (generate_content_error_prefix_falls_back
           ascii_runtime (py "x") (py "letter")
           (world_with (py "key") (http 200 (completion (py " Error: none found "))))
           [] [] (py "Error: none found")).
  - reflexivity.
  - vm_compute; reflexivity.
Defined.

(** C5 as stated fails: a completion that begins with the word "Error"
    without the colon is not discarded; generate_content returns it, and it
    is not the template result. *)
Lemma generate_content_keeps_error_word :
  startswith (py "Error handling guide") (py "Error") = true
  /\ generate_with_groq ascii_runtime (py "x") (py "document")
       (world_with (py "key") (http 200 (completion (py "Error handling guide")))) []
     = (Returned (py "Error handling guide"), [])
  /\ generate_content ascii_runtime (py "x") (py "document") true
       (world_with (py "key") (http 200 (completion (py "Error handling guide")))) []
     = (Returned (py "Error handling guide"), [])
  /\ generate_with_template ascii_runtime (py "x") (py "document")
       (world_with (py "key") (http 200 (completion (py "Error handling guide")))) []
     <> (Returned (py "Error handling guide"), []).
Proof.
  repeat split; try (vm_compute; reflexivity).
  vm_compute. discriminate.
Qed.

Lemma returns_of_run {A} (W : World) (P : A -> Prop) (m : M A) (a : A) :
  (forall page, m W page = (Returned a, page)) -> P a -> returns W P m.
Proof. intros Hrun Ha page a' page'. rewrite Hrun. now intros [= <- _]. Qed.

(** C6: when the remote endpoint answers 200 with an object that has no
    [choices] field, or an empty list of choices, generate_with_groq
    returns an error text instead of raising (the invalid-format text when
    a credential is configured), and generate_content returns what
    generate_with_template returns for the same prompt and document type. *)
Theorem generate_content_missing_choices_is_template
        (R : PyRuntime) (prompt document_type : pystr) (use_api : bool)
        (W : World) (page : list st_call) :
  every_reply W (fun r => status_code r = 200%Z /\
     exists d, json r = Returned (PDict d) /\
       (lookup d (py "choices") = None
        \/ lookup d (py "choices") = Some (PList []))) ->
  (exists result,
     generate_with_groq R prompt document_type W page = (Returned result, page)
     /\ startswith result (py "Error:") = true
     /\ (truthy (GROQ_API_TOKEN W) = true ->
         result = py "Error: Invalid response format from API"))
  /\ exists content page',
      generate_content R prompt document_type use_api W page = (Returned content, page')
      /\ generate_with_template R prompt document_type W page = (Returned content, page).
Proof.
  intros H.
  assert (Hrun : exists result,
             (forall page0, generate_with_groq R prompt document_type W page0
                            = (Returned result, page0))
             /\ startswith result (py "Error:") = true
             /\ (truthy (GROQ_API_TOKEN W) = true ->
                 result = py "Error: Invalid response format from API")).
  { destruct (truthy (GROQ_API_TOKEN W)) eqn:Htoken.
    - eexists. split; [| split; [| reflexivity]].
      + intros page0. now apply generate_with_groq_no_choices.
      + reflexivity.
    - eexists. split; [| split; [| discriminate]].
      + intros page0. unfold generate_with_groq, bind, world, ret.
        rewrite Htoken. reflexivity.
      + reflexivity. }
  destruct Hrun as (result & Hrun & Herr & Hmsg).
  split; [now exists result |].
  destruct (generate_content_after_error R prompt document_type use_api W page)
    as (page' & E); [exact (returns_of_run W is_error _ result Hrun Herr) |].
  eexists _, page'. split; [exact E | apply generate_with_template_run].
Qed.

Example generate_content_missing_choices_example :
  every_reply (world_with (py "key") (http 200 (PDict [(py "id", PStr (py "1"))])))
    (fun r => status_code r = 200%Z /\
       exists d, json r = Returned (PDict d) /\
         (lookup d (py "choices") = None
          \/ lookup d (py "choices") = Some (PList [])))
  /\ generate_with_groq ascii_runtime (py "x") (py "proposal")
       (world_with (py "key") (http 200 (PDict [(py "id", PStr (py "1"))]))) []
     = (Returned (py "Error: Invalid response format from API"), []).
Proof.
  assert (H : every_reply
                (world_with (py "key") (http 200 (PDict [(py "id", PStr (py "1"))])))
                (fun r => status_code r = 200%Z /\
                   exists d, json r = Returned (PDict d) /\
                     (lookup d (py "choices") = None
                      \/ lookup d (py "choices") = Some (PList [])))).
  { intros url payload headers timeout. eexists. split; [reflexivity |].
    split; [reflexivity |]. eexists. split; [reflexivity | left; reflexivity]. }
  split; [exact H |].
  destruct (generate_content_missing_choices_is_template
              ascii_runtime (py "x") (py "proposal") true _ [] H)
    as [(result & Hrun & _ & Hmsg) _].
  rewrite Hrun. f_equal. f_equal. apply Hmsg. reflexivity.
Defined.

(** ** Template mode *)

Lemma templates_lookup (key template : pystr) :
  In (key, template) templates ->
  dict_get templates key template_document = template.
Proof.
  unfold templates. cbn [In].
  intros [H | [H | [H | [H | [H | []]]]]]; injection H as <- <-; reflexivity.
Qed.

Lemma base_template_same_letters (R : PyRuntime) (document_type key template : pystr) :
  ascii_conformant R ->
  In (key, template) templates ->
  same_letters document_type key ->
  base_template R document_type = template.
Proof.
  intros HR Hin [Hascii Hkey]. unfold base_template.
  rewrite (conf_lower R HR _ Hascii), Hkey. now apply templates_lookup.
Qed.

Lemma base_template_default (R : PyRuntime) (document_type : pystr) :
  ~ In (py_lower R document_type) (map fst templates) ->
  base_template R document_type = template_document.
Proof.
  intros Hnot. unfold base_template.
  destruct (dict_get_cases templates (py_lower R document_type) template_document)
    as [Hin | [_ E]]; [| exact E].
  exfalso. apply Hnot. exact (in_map fst _ _ Hin).
Qed.

Lemma base_template_shape (R : PyRuntime) (document_type : pystr) :
  let t := base_template R document_type in
  t = before_placeholder t ++ placeholder ++ after_placeholder t
  /\ brace_free (before_placeholder t) = true
  /\ brace_free (after_placeholder t) = true.
Proof.
  pose proof (base_template_ok R document_type) as H.
  unfold template_ok in H. rewrite !andb_true_iff, pystr_eqb_eq in H.
  cbv zeta. tauto.
Qed.

(** C8: when the remote path is not preferred or no credential is
    configured, generate_content returns the selected template with the
    prompt put verbatim in the place of its placeholder, followed by the
    template-mode note, and shows nothing.  The selected template is text,
    the placeholder, and text without braces; it is the template of the
    key that the document type spells in any mix of upper and lower case,
    and the "document" template when the lowered document type is none of
    the five keys. *)
Theorem generate_content_template_mode_result
        (R : PyRuntime) (prompt document_type : pystr) (use_api : bool)
        (W : World) (page : list st_call) :
  ascii_conformant R ->
  use_api = false \/ GROQ_API_TOKEN W = [] ->
  let t := base_template R document_type in
  generate_content R prompt document_type use_api W page
  = (Returned (before_placeholder t ++ prompt ++ after_placeholder t ++ note), page)
  /\ t = before_placeholder t ++ placeholder ++ after_placeholder t
  /\ brace_free (before_placeholder t) = true
  /\ brace_free (after_placeholder t) = true
  /\ (forall key template,
        In (key, template) templates -> same_letters document_type key ->
        t = template)
  /\ (~ In (py_lower R document_type) (map fst templates) -> t = template_document).
Proof.
  intros HR Hmode t.
  split; [| split; [| split; [| split; [| split]]]];
    try apply (base_template_shape R document_type).
  - rewrite generate_content_template_mode by assumption.
    rewrite generate_with_template_run. unfold fill. fold t.
    now rewrite <- !app_assoc.
  - intros key template. now apply base_template_same_letters.
  - apply base_template_default.
Qed.

Example generate_content_template_mode_example :
  ascii_conformant ascii_runtime
  /\ (false = false \/ GROQ_API_TOKEN (world_with (py "key") (http 200 PNone)) = [])
  /\ generate_content ascii_runtime (py "Ada {x}") (py "Cover_Letter") false
       (world_with (py "key") (http 200 PNone)) []
     = (Returned (before_placeholder template_cover_letter ++ py "Ada {x}"
                  ++ after_placeholder template_cover_letter ++ note), []).
Proof.
  assert (HR : ascii_conformant ascii_runtime) by (split; intros; reflexivity).
  split; [exact HR |]. split; [left; reflexivity |].
  destruct (generate_content_template_mode_result
              ascii_runtime (py "Ada {x}") (py "Cover_Letter") false
              (world_with (py "key") (http 200 PNone)) [] HR (or_introl eq_refl))
    as (Hrun & _ & _ & _ & Hkey & _).
  rewrite Hrun.
  rewrite (Hkey (py "cover_letter") template_cover_letter).
  - reflexivity.
  - left. reflexivity.
  - split; [| reflexivity]. vm_compute. repeat constructor.
Defined.

(** ** No error text leaves generate_content *)

(** C10: whatever the prompt, the document type, the credential, the
    choice of path and the answer of the remote endpoint, generate_content
    returns a string (template substitution never fails), and the string
    does not start with "Error:": the test of its caller for that prefix
    is never true. *)
Theorem generate_content_never_error
        (R : PyRuntime) (prompt document_type : pystr) (use_api : bool)
        (W : World) (page : list st_call) :
  exists content page',
    generate_content R prompt document_type use_api W page = (Returned content, page')
    /\ startswith content (py "Error:") = false.
Proof.
  destruct (use_api && truthy (GROQ_API_TOKEN W)) eqn:E.
  - apply andb_true_iff in E as [-> Htoken].
    destruct (generate_with_groq_run R prompt document_type W page) as (result & Hgroq).
    rewrite (generate_content_remote _ _ _ _ _ _ _ Htoken Hgroq).
    destruct (startswith result (py "Error:")) eqn:Hresult.
    + eexists _, _. split; [reflexivity | apply template_output_not_error].
    + now exists result, page.
  - exists (fill (base_template R document_type) prompt ++ note), page.
    split; [| apply template_output_not_error].
    rewrite generate_content_template_mode; [apply generate_with_template_run |].
    apply andb_false_iff in E as [-> | E]; [now left | right].
    now destruct (GROQ_API_TOKEN W).
Qed.

(** ** create_pdf *)

Lemma new_paragraph_silent (text : pystr) (style : style_name) :
  silent (new_paragraph text style).
Proof. unfold new_paragraph. silent_tac. Qed.

Lemma add_paragraph_silent (R : PyRuntime) (story : list flowable) (para : pystr) :
  silent (add_paragraph R story para).
Proof.
  unfold add_paragraph. silent_tac; apply new_paragraph_silent.
Qed.

Lemma try_except_cases {A} (m : M A) (h : exn -> M A) (W : World) (page : list st_call) :
  silent m ->
  (exists a, m W page = (Returned a, page)
             /\ try_except m h W page = (Returned a, page))
  \/ (exists e, m W page = (Raised e, page)
                /\ try_except m h W page = h e W page).
Proof.
  intros Hs. specialize (Hs W page). unfold try_except.
  destruct (m W page) as [[a|e] page1]; simpl in Hs; subst; eauto.
Qed.

Ltac returns_tac :=
  repeat (intros; first [apply returns_ret | apply returns_bind]).

(** What the layout does decides what create_pdf does. *)
Lemma new_paragraph_run (W : World) (page : list st_call)
      (text : pystr) (style : style_name) :
  new_paragraph text style W page
  = match paragraph_error W text style with
    | Some e => (Raised e, page)
    | None => (Returned (Paragraph text style), page)
    end.
Proof.
  unfold new_paragraph, bind, world, raise, ret.
  now destruct (paragraph_error W text style).
Qed.

Lemma first_rejection_app (W : World) (a b : list (pystr * style_name)) :
  first_rejection W (a ++ b)
  = match first_rejection W a with
    | Some e => Some e
    | None => first_rejection W b
    end.
Proof.
  induction a as [|[text style] a IH]; cbn [app first_rejection]; [reflexivity |].
  now destruct (paragraph_error W text style).
Qed.

Lemma add_paragraph_run (R : PyRuntime) (W : World) (page : list st_call)
      (story : list flowable) (para : pystr) :
  add_paragraph R story para W page
  = match first_rejection W (unit_requests R para) with
    | Some e => (Raised e, page)
    | None => (Returned (story ++ unit_flowables R para), page)
    end.
Proof.
  unfold add_paragraph, unit_requests, unit_flowables.
  destruct (truthy (strip para)).
  - destruct (looks_like_heading R (strip para));
      unfold bind; rewrite new_paragraph_run; cbn [first_rejection];
      now destruct (paragraph_error W (strip para) _).
  - cbn [first_rejection]. unfold ret. now rewrite app_nil_r.
Qed.

Lemma for_each_add_paragraph_run (R : PyRuntime) (W : World) (page : list st_call)
      (paragraphs : list pystr) (story : list flowable) :
  for_each (add_paragraph R) paragraphs story W page
  = match first_rejection W (flat_map (unit_requests R) paragraphs) with
    | Some e => (Raised e, page)
    | None => (Returned (story ++ flat_map (unit_flowables R) paragraphs), page)
    end.
Proof.
  revert story.
  induction paragraphs as [|para rest IH]; intros story;
    cbn [for_each flat_map first_rejection].
  - unfold ret. now rewrite app_nil_r.
  - unfold bind. rewrite add_paragraph_run, first_rejection_app.
    destruct (first_rejection W (unit_requests R para)); [reflexivity |].
    rewrite IH.
    destruct (first_rejection W (flat_map (unit_requests R) rest)); [reflexivity |].
    now rewrite <- app_assoc.
Qed.

(** C7: for every content and title, create_pdf returns and never raises,
    and what it returns is decided by the layout alone.  When ReportLab
    rejects one of the paragraphs (the title, a unit, the footer), the
    result is null and the diagnostic "PDF Generation Error: " with the
    text of the first rejection is shown; when it accepts them all and the
    layout of the story fails, the result is null and the diagnostic with
    the text of that failure is shown; otherwise the result is the bytes
    of the layout and nothing is shown. *)
Theorem create_pdf_result_or_diagnostic
        (R : PyRuntime) (content document_type : pystr)
        (W : World) (page : list st_call) :
  create_pdf R content document_type W page
  = match first_rejection W (paragraph_requests R W content document_type) with
    | Some e => (Returned None, with_pdf_error page e)
    | None =>
        match doc_build W (story_of R W content document_type) with
        | Returned pdf => (Returned (Some pdf), page)
        | Raised e => (Returned None, with_pdf_error page e)
        end
    end.
Proof.
  unfold create_pdf, try_except, paragraph_requests, story_of, with_pdf_error.
  cbn [first_rejection]. unfold bind at 1. rewrite new_paragraph_run.
  destruct (paragraph_error W (clean_text_for_pdf document_type) CustomTitle) as [e |].
  { reflexivity. }
  cbv zeta. unfold bind at 1.
  rewrite for_each_add_paragraph_run, first_rejection_app.
  destruct (first_rejection W
              (flat_map (unit_requests R)
                        (split_blank (clean_text_for_pdf content)))) as [e |].
  { reflexivity. }
  unfold bind at 1, world. unfold bind at 1. rewrite new_paragraph_run.
  cbn [first_rejection].
  destruct (paragraph_error W _ Normal) as [e |].
  { reflexivity. }
  unfold bind, lift, ret, show. rewrite <- app_assoc.
  now destruct (doc_build W _).
Qed.

(** ** Paragraph units *)

Lemma push_not_nil (c : codepoint) (pieces : list pystr) : push c pieces <> [].
Proof. now destruct pieces. Qed.

Lemma split_blank_cons (c : codepoint) (t : pystr) :
  split_blank (c :: t)
  = match t with
    | d :: r =>
        if (c =? 10) && (d =? 10) then [] :: split_blank r
        else push c (split_blank t)
    | [] => push c (split_blank t)
    end.
Proof. now destruct t. Qed.

Lemma split_blank_not_nil (s : pystr) : split_blank s <> [].
Proof.
  destruct s as [|c t]; [easy |]. rewrite split_blank_cons.
  destruct t as [|d r]; [apply push_not_nil |].
  destruct (_ && _); [easy | apply push_not_nil].
Qed.

Lemma push_hd_tl (c : codepoint) (pieces : list pystr) :
  pieces <> [] -> push c pieces = (c :: hd [] pieces) :: tl pieces.
Proof. now destruct pieces. Qed.

Lemma push_app (c : codepoint) (a b : list pystr) :
  a <> [] -> push c (a ++ b) = push c a ++ b.
Proof. now destruct a. Qed.

(** A text that holds no separator stays in front of the first piece of
    what follows it. *)
Lemma split_blank_unbroken (p rest : pystr) :
  unbroken p = true ->
  split_blank (p ++ rest)
  = (p ++ hd [] (split_blank rest)) :: tl (split_blank rest).
Proof.
  induction p as [|c p IH]; intros Hp.
  - simpl. pose proof (split_blank_not_nil rest). now destruct (split_blank rest).
  - rewrite <- app_comm_cons, split_blank_cons.
    destruct p as [|d p].
    + cbn [unbroken] in Hp. apply negb_true_iff in Hp.
      cbn [app]. destruct rest as [|d rest].
      * reflexivity.
      * rewrite Hp. cbn [andb].
        apply push_hd_tl, split_blank_not_nil.
    + cbn [unbroken] in Hp.
      apply andb_true_iff in Hp as [Hcd Hp]. apply negb_true_iff in Hcd.
      rewrite <- app_comm_cons, Hcd, <- app_comm_cons.
      rewrite app_comm_cons, (IH Hp). reflexivity.
Qed.

(** A separator after a character that is not a newline ends a piece,
    whatever comes before. *)
Lemma split_blank_separator (x : pystr) (c : codepoint) (y : pystr) :
  c <> 10 ->
  split_blank (x ++ c :: 10 :: 10 :: y) = split_blank (x ++ [c]) ++ split_blank y.
Proof.
  intros Hc. apply N.eqb_neq in Hc.
  assert (B : split_blank (c :: 10 :: 10 :: y) = split_blank [c] ++ split_blank y).
  { rewrite !split_blank_cons, Hc. reflexivity. }
  remember (length x) as n eqn:En. revert x En.
  induction n as [n IH] using lt_wf_ind. intros x En.
  destruct x as [|a x]; [exact B |].
  rewrite <- !app_comm_cons.
  rewrite (split_blank_cons a (x ++ c :: 10 :: 10 :: y)).
  rewrite (split_blank_cons a (x ++ [c])).
  destruct x as [|b x].
  - cbn [app]. rewrite Hc, andb_false_r, B.
    apply push_app, split_blank_not_nil.
  - rewrite <- !app_comm_cons. simpl in En.
    destruct ((a =? 10) && (b =? 10)).
    + rewrite (IH (length x) ltac:(lia) x eq_refl). reflexivity.
    + rewrite !app_comm_cons.
      rewrite (IH (length (b :: x)) ltac:(simpl; lia) (b :: x) eq_refl).
      apply push_app, split_blank_not_nil.
Qed.

(** ** Headings *)

Lemma endswith_colon (s : pystr) :
  endswith s (py ":") = true <-> exists body, s = body ++ py ":".
Proof.
  change (py ":") with [58]. unfold endswith. cbn [rev app].
  split.
  - destruct (rev s) as [|c t] eqn:E; cbn [startswith]; [discriminate |].
    rewrite andb_true_iff, N.eqb_eq. intros [-> _].
    exists (rev t). rewrite <- (rev_involutive s), E. reflexivity.
  - intros (body & ->). rewrite rev_app_distr. cbn [rev app startswith].
    rewrite N.eqb_refl. apply startswith_nil.
Qed.

Lemma looks_like_heading_rule (R : PyRuntime) (unit : pystr) :
  looks_like_heading R unit = true <-> heading_rule R unit.
Proof.
  unfold looks_like_heading, heading_rule.
  rewrite andb_true_iff, orb_true_iff, N.ltb_lt, endswith_colon.
  split; intros [Hlen Hrule]; (split; [lia | exact Hrule]).
Qed.

(** X1: The loop body of create_pdf: a unit that is blank after trimming adds
    nothing; any other unit adds its trimmed text and a 12-point spacer,
    in the header style exactly when the trimmed text is under 80
    characters and is upper-case or ends with a colon, and in the body
    style otherwise.  Nothing is shown. *)
Theorem add_paragraph_styles
        (R : PyRuntime) (story : list flowable) (para : pystr)
        (W : World) (page : list st_call)
        (story' : list flowable) (page' : list st_call) :
  add_paragraph R story para W page = (Returned story', page') ->
  page' = page
  /\ (strip para = [] -> story' = story)
  /\ (strip para <> [] ->
      exists style,
        story' = story ++ [Paragraph (strip para) style; Spacer 1 12]
        /\ (style = CustomHeader <-> heading_rule R (strip para))
        /\ (style = CustomBody <-> ~ heading_rule R (strip para))).
Proof.
  unfold add_paragraph.
  generalize (looks_like_heading_rule R (strip para)).
  destruct (strip para) as [|c t] eqn:E; cbn [truthy]; intros Hrule.
  - intros [= <- <-]. split; [reflexivity |]. split; [reflexivity |].
    intros H. now contradiction H.
  - destruct (looks_like_heading R (c :: t)) eqn:Hh;
      unfold new_paragraph, bind, world, raise, ret;
      match goal with
      | |- context [paragraph_error W ?x ?y] => destruct (paragraph_error W x y)
      end; try discriminate;
      intros [= <- <-]; (split; [reflexivity |]); (split; [discriminate |]);
      intros _; eexists; (split; [reflexivity |]).
    + split; split; try congruence; tauto.
    + split; split; try congruence;
        solve [ intros Hr; apply Hrule in Hr; discriminate
              | intros _ Hr; apply Hrule in Hr; discriminate ].
Qed.

Example add_paragraph_styles_example :
  add_paragraph ascii_runtime [] (py " KEY POINTS
") (world_with [] (http 200 PNone)) []
  = (Returned [Paragraph (py "KEY POINTS") CustomHeader; Spacer 1 12], [])
  /\ heading_rule ascii_runtime (py "KEY POINTS").
Proof.
  assert (H : add_paragraph ascii_runtime [] (py " KEY POINTS
") (world_with [] (http 200 PNone)) []
    = (Returned [Paragraph (py "KEY POINTS") CustomHeader; Spacer 1 12], [])).
  { vm_compute. reflexivity. }
  split; [exact H |].
  destruct (add_paragraph_styles _ _ _ _ _ _ _ H) as (_ & _ & Hunit).
  destruct Hunit as (style & Hstory & Hheader & _); [vm_compute; discriminate |].
  apply Hheader. cbn [app] in Hstory. congruence.
Defined.

(** ** The story of create_pdf *)

Lemma bind_run {A B} (m : M A) (k : A -> M B) (W : World)
      (page page' : list st_call) (a : A) :
  m W page = (Returned a, page') -> bind m k W page = k a W page'.
Proof. intros E. unfold bind. now rewrite E. Qed.

Lemma new_paragraph_accepted (W : World) (page : list st_call)
      (text : pystr) (style : style_name) :
  accepts_all W ->
  new_paragraph text style W page = (Returned (Paragraph text style), page).
Proof.
  intros H. unfold new_paragraph, bind, world. now rewrite H.
Qed.

Lemma add_paragraph_accepted (R : PyRuntime) (W : World) (page : list st_call)
      (story : list flowable) (para : pystr) :
  accepts_all W ->
  add_paragraph R story para W page
  = (Returned (story ++ unit_flowables R para), page).
Proof.
  intros H. unfold add_paragraph, unit_flowables.
  destruct (truthy (strip para)).
  - destruct (looks_like_heading R (strip para));
      now rewrite (bind_run _ _ _ _ _ _ (new_paragraph_accepted W page _ _ H)).
  - unfold ret. now rewrite app_nil_r.
Qed.

Lemma for_each_add_paragraph_accepted (R : PyRuntime) (W : World)
      (page : list st_call) (paragraphs : list pystr) (story : list flowable) :
  accepts_all W ->
  for_each (add_paragraph R) paragraphs story W page
  = (Returned (story ++ flat_map (unit_flowables R) paragraphs), page).
Proof.
  intros H. revert story.
  induction paragraphs as [|para rest IH]; intros story; cbn [for_each flat_map].
  - unfold ret. now rewrite app_nil_r.
  - rewrite (bind_run _ _ _ _ _ _ (add_paragraph_accepted R W page story para H)).
    rewrite IH. now rewrite <- app_assoc.
Qed.

(** X2: When ReportLab accepts every paragraph, create_pdf lays out exactly
    the story title, 20-point spacer, the non-blank units of the cleaned
    content in order, each trimmed, styled and followed by a 12-point
    spacer, a 30-point spacer and the footer; it returns the bytes of that
    layout, or the null result with the diagnostic when the layout fails. *)
Theorem create_pdf_lays_out_story
        (R : PyRuntime) (content document_type : pystr)
        (W : World) (page : list st_call) :
  accepts_all W ->
  create_pdf R content document_type W page
  = match doc_build W (story_of R W content document_type) with
    | Returned pdf => (Returned (Some pdf), page)
    | Raised e =>
        (Returned None,
         page ++ [st_error (py "PDF Generation Error: " ++ exn_str e)])
    end.
Proof.
  intros H. unfold create_pdf, try_except, story_of.
  rewrite (bind_run _ _ _ _ _ _ (new_paragraph_accepted W page _ _ H)).
  cbv zeta.
  rewrite (bind_run _ _ _ _ _ _
             (for_each_add_paragraph_accepted R W page _ _ H)).
  unfold bind at 1, world.
  rewrite (bind_run _ _ _ _ _ _ (new_paragraph_accepted W page _ _ H)).
  unfold bind, lift, ret, show. rewrite <- app_assoc.
  now destruct (doc_build W _).
Qed.

Example create_pdf_lays_out_story_example :
  accepts_all (world_with [] (http 200 PNone))
  /\ create_pdf ascii_runtime (py "NOTES

  

one – two") (py "Memo") (world_with [] (http 200 PNone)) []
     = (Returned (Some []), [])
  /\ story_of ascii_runtime (world_with [] (http 200 PNone)) (py "NOTES

  

one – two") (py "Memo")
     = [Paragraph (py "Memo") CustomTitle; Spacer 1 20;
        Paragraph (py "NOTES") CustomHeader; Spacer 1 12;
        Paragraph (py "one - two") CustomBody; Spacer 1 12;
        Spacer 1 30;
        Paragraph (py "Generated on January 01, 2025 using AI PDF Generator") Normal].
Proof.
  assert (H : accepts_all (world_with [] (http 200 PNone))) by (intros ? ?; reflexivity).
  split; [exact H |]. split; [| vm_compute; reflexivity].
  rewrite (create_pdf_lays_out_story ascii_runtime _ _ _ [] H). reflexivity.
Defined.

(** ** Upper-case units *)

Lemma isupper_scan_no_lower (R : PyRuntime) (s : pystr) (cased : bool) :
  isupper_scan R s cased = true ->
  forall c, In c s -> cp_islower R c = false /\ cp_istitle R c = false.
Proof.
  revert cased. induction s as [|ch s IH]; intros cased Hscan c; [easy |].
  cbn [isupper_scan] in Hscan.
  destruct (cp_islower R ch || cp_istitle R ch) eqn:E; [discriminate |].
  apply orb_false_iff in E.
  intros [<- | Hin]; [exact E |].
  destruct (negb cased && cp_isupper R ch); eapply IH; eassumption.
Qed.

Lemma isupper_scan_upper (R : PyRuntime) (s : pystr) (cased : bool) :
  (forall c, In c s -> cp_islower R c = false /\ cp_istitle R c = false) ->
  isupper_scan R s cased = cased || existsb (cp_isupper R) s.
Proof.
  revert cased. induction s as [|ch s IH]; intros cased Hs; cbn [isupper_scan existsb].
  - now rewrite orb_false_r.
  - destruct (Hs ch (or_introl eq_refl)) as [-> ->]. cbn [orb].
    rewrite !IH by (intros c Hc; apply Hs; now right).
    destruct cased, (cp_isupper R ch); reflexivity.
Qed.

Lemma ascii_upper_not_lower (c : codepoint) :
  ascii_isupper c = true -> ascii_islower c = false.
Proof.
  unfold ascii_isupper, ascii_islower.
  rewrite andb_true_iff, andb_false_iff, !N.leb_le, !N.leb_gt. lia.
Qed.

(** X3: A unit under 80 characters made of ASCII characters, none of them a
    lower-case letter and at least one an upper-case letter, is styled as
    a heading (an ALL-CAPS header on a unit of its own). *)
Theorem all_caps_unit_is_heading (R : PyRuntime) (unit : pystr) :
  ascii_conformant R ->
  (length unit < 80)%nat ->
  (forall c, In c unit -> c < 128 /\ ascii_islower c = false) ->
  (exists c, In c unit /\ ascii_isupper c = true) ->
  looks_like_heading R unit = true.
Proof.
  intros HR Hlen Hchars (u & Hu & Hupper).
  unfold looks_like_heading. apply andb_true_iff. split; [apply N.ltb_lt; lia |].
  apply orb_true_iff. left.
  assert (Hscan : isupper_scan R unit false = true).
  { rewrite isupper_scan_upper.
    - cbn [orb]. apply existsb_exists. exists u. split; [exact Hu |].
      rewrite (conf_isupper R HR); [exact Hupper | now apply Hchars].
    - intros c Hc. destruct (Hchars c Hc) as [Hascii Hlow].
      now rewrite (conf_islower R HR), (conf_istitle R HR). }
  destruct unit as [|a [|b rest]]; [easy | | exact Hscan].
  cbn [isupper]. destruct Hu as [-> | []].
  rewrite (conf_isupper R HR); [exact Hupper | now apply Hchars; left].
Qed.

Example all_caps_unit_is_heading_example :
  ascii_conformant ascii_runtime
  /\ looks_like_heading ascii_runtime (py "CERTIFICATIONS & ADDITIONAL QUALIFICATIONS") = true.
Proof.
  assert (HR : ascii_conformant ascii_runtime) by (split; intros; reflexivity).
  split; [exact HR |].
  apply (all_caps_unit_is_heading ascii_runtime _ HR).
  - vm_compute. lia.
  - assert (F : forallb (fun c => (c <? 128) && negb (ascii_islower c))
                  (py "CERTIFICATIONS & ADDITIONAL QUALIFICATIONS") = true)
      by (vm_compute; reflexivity).
    rewrite forallb_forall in F. intros c Hc. specialize (F c Hc).
    apply andb_true_iff in F as [F1 F2].
    apply N.ltb_lt in F1. apply negb_true_iff in F2. now split.
  - exists 67. split; [vm_compute; now left | reflexivity].
Defined.

(** X4: A unit styled as a heading is under 80 characters, and unless it ends
    with a colon none of its characters is an ASCII lower-case letter:
    mixed-case text without a final colon is never a heading. *)
Theorem heading_without_colon_has_no_lowercase (R : PyRuntime) (unit : pystr) :
  ascii_conformant R ->
  looks_like_heading R unit = true ->
  (length unit < 80)%nat
  /\ (endswith unit (py ":") = true
      \/ forall c, In c unit -> c < 128 -> ascii_islower c = false).
Proof.
  intros HR Hh. unfold looks_like_heading in Hh.
  apply andb_true_iff in Hh as [Hlen Hh]. apply N.ltb_lt in Hlen.
  split; [lia |]. apply orb_true_iff in Hh as [Hup | Hcolon]; [right | now left].
  intros c Hc Hascii.
  destruct unit as [|a [|b rest]]; [easy | |].
  - cbn [isupper] in Hup. destruct Hc as [<- | []].
    rewrite (conf_isupper R HR) in Hup by assumption.
    now apply ascii_upper_not_lower.
  - cbn [isupper] in Hup.
    destruct (isupper_scan_no_lower R _ _ Hup c Hc) as [Hlow _].
    now rewrite (conf_islower R HR) in Hlow.
Qed.

Example heading_without_colon_has_no_lowercase_example :
  ascii_conformant ascii_runtime
  /\ looks_like_heading ascii_runtime (py "KEY POINTS") = true
  /\ (length (py "KEY POINTS") < 80)%nat.
Proof.
  assert (HR : ascii_conformant ascii_runtime) by (split; intros; reflexivity).
  assert (Hh : looks_like_heading ascii_runtime (py "KEY POINTS") = true)
    by (vm_compute; reflexivity).
  split; [exact HR |]. split; [exact Hh |].
  exact (proj1 (heading_without_colon_has_no_lowercase ascii_runtime _ HR Hh)).
Defined.

(** ** Trimming *)

Lemma lstrip_length (s : pystr) : (length (lstrip s) <= length s)%nat.
Proof.
  induction s as [|c s IH]; cbn [lstrip]; [easy |].
  destruct (isspace c); cbn [length]; lia.
Qed.

Lemma lstrip_app_length (u v : pystr) :
  (length (lstrip v) <= length (lstrip (u ++ v)))%nat.
Proof.
  induction u as [|c u IH]; cbn [app lstrip]; [lia |].
  destruct (isspace c); [exact IH |].
  cbn [length]. rewrite length_app. pose proof (lstrip_length v). lia.
Qed.

Lemma rstrip_app_length (a b : pystr) :
  (length (rstrip a) <= length (rstrip (a ++ b)))%nat.
Proof.
  unfold rstrip. rewrite !length_rev, rev_app_distr. apply lstrip_app_length.
Qed.

Lemma lstrip_text (c : codepoint) (s : pystr) :
  isspace c = false -> lstrip (c :: s) = c :: s.
Proof. intros H. cbn [lstrip]. now rewrite H. Qed.

(** A unit that opens with text whose trimmed length is 80 or more is
    styled as body text, whatever follows in the unit. *)
Lemma long_opening_is_body (R : PyRuntime) (c : codepoint) (opening rest : pystr) :
  isspace c = false ->
  (80 <= length (rstrip (c :: opening)))%nat ->
  looks_like_heading R (strip ((c :: opening) ++ rest)) = false.
Proof.
  intros Hc Hlen. unfold looks_like_heading, strip.
  rewrite <- app_comm_cons, (lstrip_text _ _ Hc), app_comm_cons.
  pose proof (rstrip_app_length (c :: opening) rest).
  apply andb_false_iff. left. apply N.ltb_ge. lia.
Qed.

(** ** The units of the template outputs *)

Lemma proposal_opening :
  clean_text_for_pdf (before_placeholder template_proposal)
  = py "BUSINESS PROPOSA" ++ 76 :: 10 :: 10 :: executive_summary_opening.
Proof. vm_compute. reflexivity. Qed.

Lemma proposal_title_unit :
  split_blank (py "BUSINESS PROPOSA" ++ [76]) = [py "BUSINESS PROPOSAL"].
Proof. vm_compute. reflexivity. Qed.

Lemma executive_summary_opening_facts :
  unbroken executive_summary_opening = true
  /\ exists c opening,
       executive_summary_opening = c :: opening
       /\ isspace c = false
       /\ (80 <= length (rstrip (c :: opening)))%nat.
Proof.
  split; [vm_compute; reflexivity |].
  exists 69, (tl executive_summary_opening).
  split; [vm_compute; reflexivity |]. split; [reflexivity |].
  apply Nat.leb_le. vm_compute. reflexivity.
Qed.

Lemma business_proposal_heading (R : PyRuntime) :
  ascii_conformant R ->
  looks_like_heading R (strip (py "BUSINESS PROPOSAL")) = true.
Proof.
  intros HR.
  replace (strip (py "BUSINESS PROPOSAL")) with (py "BUSINESS PROPOSAL")
    by (vm_compute; reflexivity).
  unfold looks_like_heading. apply andb_true_iff.
  split; [vm_compute; reflexivity |]. apply orb_true_iff. left.
  assert (F : forallb (fun c => (c <? 128) && negb (ascii_islower c))
                (py "BUSINESS PROPOSAL") = true) by (vm_compute; reflexivity).
  rewrite forallb_forall in F.
  replace (isupper R (py "BUSINESS PROPOSAL"))
    with (isupper_scan R (py "BUSINESS PROPOSAL") false)
    by (vm_compute; reflexivity).
  rewrite isupper_scan_upper.
  - cbn [orb]. apply existsb_exists. exists 66.
    split; [vm_compute; now left |]. now rewrite (conf_isupper R HR).
  - intros c Hc. specialize (F c Hc). apply andb_true_iff in F as [F1 F2].
    apply N.ltb_lt in F1. apply negb_true_iff in F2.
    now rewrite (conf_islower R HR), (conf_istitle R HR).
Qed.

(** X5: The proposal template on the page: for every prompt, the first
    paragraph unit of the template output is the title line "BUSINESS
    PROPOSAL", styled as a heading; the second unit opens with the line
    "EXECUTIVE SUMMARY" and the sentence under it, which no blank line
    separates, and is styled as body text. *)
Theorem proposal_units (R : PyRuntime) (prompt document_type : pystr) :
  ascii_conformant R ->
  py_lower R document_type = py "proposal" ->
  exists content rest_of_unit rest,
    (forall W page,
        generate_with_template R prompt document_type W page
        = (Returned content, page))
    /\ split_blank (clean_text_for_pdf content)
       = py "BUSINESS PROPOSAL"
         :: (executive_summary_opening ++ rest_of_unit) :: rest
    /\ looks_like_heading R (strip (py "BUSINESS PROPOSAL")) = true
    /\ looks_like_heading R (strip (executive_summary_opening ++ rest_of_unit))
       = false.
Proof.
  intros HR Hlower.
  assert (Ht : base_template R document_type = template_proposal).
  { unfold base_template. rewrite Hlower. apply templates_lookup.
    unfold templates. cbn [In]. do 2 right. left. reflexivity. }
  destruct executive_summary_opening_facts as (Hunbroken & c & opening & Ec & Hc & Hlen).
  set (tail := clean_text_for_pdf
                 (prompt ++ after_placeholder template_proposal ++ note)).
  exists (fill template_proposal prompt ++ note),
         (hd [] (split_blank tail)), (tl (split_blank tail)).
  split; [| split; [| split]].
  - intros W page. rewrite generate_with_template_run, Ht. reflexivity.
  - unfold fill. rewrite <- !app_assoc.
    rewrite clean_text_for_pdf_app, proposal_opening. fold tail.
    rewrite <- app_assoc, <- !app_comm_cons.
    rewrite split_blank_separator by discriminate.
    change (py "BUSINESS PROPOSAL"
            :: (executive_summary_opening ++ hd [] (split_blank tail))
            :: tl (split_blank tail))
      with ([py "BUSINESS PROPOSAL"]
            ++ (executive_summary_opening ++ hd [] (split_blank tail))
               :: tl (split_blank tail)).
    apply (f_equal2 (@app pystr));
      [apply proposal_title_unit | now apply split_blank_unbroken].
  - now apply business_proposal_heading.
  - rewrite Ec. now apply long_opening_is_body.
Qed.

Example proposal_units_example :
  ascii_conformant ascii_runtime
  /\ py_lower ascii_runtime (py "Proposal") = py "proposal"
  /\ exists content rest_of_unit rest,
      (forall W page,
          generate_with_template ascii_runtime (py "x") (py "Proposal") W page
          = (Returned content, page))
      /\ split_blank (clean_text_for_pdf content)
         = py "BUSINESS PROPOSAL"
           :: (executive_summary_opening ++ rest_of_unit) :: rest
      /\ looks_like_heading ascii_runtime (strip (py "BUSINESS PROPOSAL")) = true
      /\ looks_like_heading ascii_runtime
           (strip (executive_summary_opening ++ rest_of_unit)) = false.
Proof.
  assert (HR : ascii_conformant ascii_runtime) by (split; intros; reflexivity).
  assert (Hl : py_lower ascii_runtime (py "Proposal") = py "proposal")
    by (vm_compute; reflexivity).
  split; [exact HR |]. split; [exact Hl |].
  exact (proposal_units ascii_runtime (py "x") (py "Proposal") HR Hl).
Defined.

Lemma note_parts :
  note = 10 :: 10 :: note_unit
  /\ clean_text_for_pdf note_unit = note_unit
  /\ split_blank note_unit = [note_unit]
  /\ (N.of_nat (length (strip note_unit)) <? 80) = false.
Proof. split; [| split; [| split]]; vm_compute; reflexivity. Qed.

Lemma templates_end_in_text :
  forallb (fun kt => ends_in_text (snd kt)) templates = true.
Proof. vm_compute. reflexivity. Qed.

Lemma template_document_ends_in_text : ends_in_text template_document = true.
Proof. vm_compute. reflexivity. Qed.

Lemma base_template_ends_in_text (R : PyRuntime) (document_type : pystr) :
  exists text c,
    after_placeholder (base_template R document_type) = text ++ [c] /\ c <> 10.
Proof.
  assert (H : ends_in_text (base_template R document_type) = true).
  { unfold base_template.
    pose proof templates_end_in_text as H. rewrite forallb_forall in H.
    destruct (dict_get_cases templates (py_lower R document_type) template_document)
      as [Hin | [_ ->]]; [exact (H _ Hin) | apply template_document_ends_in_text]. }
  unfold ends_in_text in H.
  destruct (rev (after_placeholder (base_template R document_type)))
    as [|c r] eqn:E; [discriminate |].
  exists (rev r), c. split.
  - rewrite <- (rev_involutive (after_placeholder _)), E. reflexivity.
  - apply negb_true_iff, N.eqb_neq in H. exact H.
Qed.

Lemma clean_text_for_pdf_cons (c : codepoint) (s : pystr) :
  clean_text_for_pdf (c :: s) = clean_char c :: clean_text_for_pdf s.
Proof. now rewrite !clean_text_for_pdf_map. Qed.

Lemma clean_char_newline (c : codepoint) : c <> 10 -> clean_char c <> 10.
Proof.
  intros Hc. unfold clean_char. eqb_cases c; try discriminate; assumption.
Qed.

(** X6: The template-mode note on the page: for every prompt and document
    type, the last paragraph unit of the template output is the note, from
    its rule of dashes on, and it is styled as body text. *)
Theorem note_is_last_unit (R : PyRuntime) (prompt document_type : pystr) :
  exists content units,
    (forall W page,
        generate_with_template R prompt document_type W page
        = (Returned content, page))
    /\ split_blank (clean_text_for_pdf content) = units ++ [note_unit]
    /\ looks_like_heading R (strip note_unit) = false.
Proof.
  destruct note_parts as (Enote & Eclean & Esplit & Elong).
  destruct (base_template_ends_in_text R document_type) as (text & c & Eafter & Hc).
  set (t := base_template R document_type) in *.
  exists (fill t prompt ++ note),
         (split_blank (clean_text_for_pdf (before_placeholder t ++ prompt ++ text)
                       ++ [clean_char c])).
  split; [| split].
  - intros W page. apply generate_with_template_run.
  - unfold fill. rewrite Eafter, Enote.
    replace ((before_placeholder t ++ prompt ++ text ++ [c]) ++ 10 :: 10 :: note_unit)
      with ((before_placeholder t ++ prompt ++ text) ++ c :: 10 :: 10 :: note_unit)
      by (rewrite <- !app_assoc; reflexivity).
    rewrite clean_text_for_pdf_app, !clean_text_for_pdf_cons, Eclean.
    change (clean_char 10) with 10.
    rewrite split_blank_separator by now apply clean_char_newline.
    now rewrite Esplit.
  - unfold looks_like_heading. now rewrite Elong.
Qed.

(** ** What clean_text_for_pdf does to each character *)

(** X7: Position by position: a right single quotation mark becomes an
    apostrophe, a left or right double quotation mark a double quote, an en
    or em dash a hyphen, and every other character stays as it is; none of
    the five replaced characters is left in the result. *)
Theorem clean_text_for_pdf_pointwise (text : pystr) (i : nat) (c : codepoint) :
  nth_error text i = Some c ->
  (forall r, In r (clean_text_for_pdf text) -> ~ handled r)
  /\ (c = 0x2019 -> nth_error (clean_text_for_pdf text) i = Some 39)
  /\ (c = 0x201c \/ c = 0x201d -> nth_error (clean_text_for_pdf text) i = Some 34)
  /\ (c = 0x2013 \/ c = 0x2014 -> nth_error (clean_text_for_pdf text) i = Some 45)
  /\ (~ handled c -> nth_error (clean_text_for_pdf text) i = Some c).
Proof.
  intros Hc.
  assert (Hi : nth_error (clean_text_for_pdf text) i = Some (clean_char c)).
  { rewrite clean_text_for_pdf_map. now apply map_nth_error. }
  rewrite Hi. split; [| split; [| split; [| split]]].
  - intros r Hr. apply clean_text_for_pdf_handled in Hr. unfold handled. tauto.
  - intros ->. reflexivity.
  - intros [-> | ->]; reflexivity.
  - intros [-> | ->]; reflexivity.
  - unfold handled, clean_char. intros Hn. f_equal.
    eqb_cases c; tauto || reflexivity.
Qed.

Example clean_text_for_pdf_pointwise_example :
  nth_error (py "a—b") 1 = Some 0x2014
  /\ nth_error (clean_text_for_pdf (py "a—b")) 1 = Some 45.
Proof.
  assert (H : nth_error (py "a—b") 1 = Some 0x2014) by reflexivity.
  split; [exact H |].
  destruct (clean_text_for_pdf_pointwise _ _ _ H) as (_ & _ & _ & Hdash & _).
  apply Hdash. now right.
Defined.

(** ** The error texts of generate_with_groq *)

(** X8: When the request itself fails, the text names the failure: a fixed
    sentence for a timeout and for a connection error, and the text of the
    exception for anything else.  Nothing is raised or shown. *)
Theorem generate_with_groq_request_failure
        (R : PyRuntime) (prompt document_type : pystr)
        (W : World) (page : list st_call) (e : exn) :
  truthy (GROQ_API_TOKEN W) = true ->
  every_request_raises W e ->
  generate_with_groq R prompt document_type W page
  = (Returned
       match exn_cls e with
       | RequestsTimeout => py "Error: Request timed out. Please try again."
       | RequestsConnectionError =>
           py "Error: Connection failed. Please check your internet connection."
       | OtherException => py "Error: " ++ exn_str e
       end, page).
Proof.
  intros Htoken H.
  unfold generate_with_groq, bind at 1, world. rewrite Htoken. cbn [negb].
  unfold try_except, bind at 1, lift. rewrite H.
  now destruct (exn_cls e).
Qed.

Example generate_with_groq_request_failure_example :
  truthy (GROQ_API_TOKEN
            (world_with (py "key") (Raised (Exn RequestsTimeout (py "timed out"))))) = true
  /\ every_request_raises
       (world_with (py "key") (Raised (Exn RequestsTimeout (py "timed out"))))
       (Exn RequestsTimeout (py "timed out"))
  /\ generate_with_groq ascii_runtime (py "x") (py "resume")
       (world_with (py "key") (Raised (Exn RequestsTimeout (py "timed out")))) []
     = (Returned
          match exn_cls (Exn RequestsTimeout (py "timed out")) with
          | RequestsTimeout => py "Error: Request timed out. Please try again."
          | RequestsConnectionError =>
              py "Error: Connection failed. Please check your internet connection."
          | OtherException => py "Error: " ++ exn_str (Exn RequestsTimeout (py "timed out"))
          end, []).
Proof.
  assert (Ht : truthy (GROQ_API_TOKEN
            (world_with (py "key") (Raised (Exn RequestsTimeout (py "timed out"))))) = true)
    by reflexivity.
  assert (Hr : every_request_raises
       (world_with (py "key") (Raised (Exn RequestsTimeout (py "timed out"))))
       (Exn RequestsTimeout (py "timed out"))) by (intros ? ? ? ?; reflexivity).
  split; [exact Ht |]. split; [exact Hr |].
  exact (generate_with_groq_request_failure ascii_runtime (py "x") (py "resume")
           _ [] _ Ht Hr).
Defined.

Lemma py_in_dict (R : PyRuntime) (key : pystr) (d : list (pystr * pyval)) :
  py_in R key (PDict d)
  = Returned match lookup d key with Some _ => true | None => false end.
Proof. unfold py_in. now rewrite lookup_existsb. Qed.

Lemma py_getitem_dict (R : PyRuntime) (d : list (pystr * pyval)) (key : pystr) :
  py_getitem R (PDict d) (KStr key)
  = match lookup d key with
    | Some x => Returned x
    | None => builtin R (KeyError (KStr key))
    end.
Proof. reflexivity. Qed.

(** X9: A status other than 200: the error text is "Error: API Error" and
    the status, followed after a colon by the message of the [error]
    object of the body ("Unknown error" when it has none), by nothing when
    the body is an object without [error], and by the raw text of the
    body when the body is not JSON. *)
Theorem generate_with_groq_api_error
        (R : PyRuntime) (prompt document_type : pystr)
        (W : World) (page : list st_call) (r : response) :
  truthy (GROQ_API_TOKEN W) = true ->
  every_reply W (fun r' => r' = r) ->
  status_code r <> 200%Z ->
  (forall d details,
      json r = Returned (PDict d) ->
      lookup d (py "error") = Some (PDict details) ->
      generate_with_groq R prompt document_type W page
      = (Returned (py "Error: "
                   ++ (py "API Error " ++ str_of_int (status_code r))
                   ++ py ": "
                   ++ fstr R match lookup details (py "message") with
                             | Some message => message
                             | None => PStr (py "Unknown error")
                             end), page))
  /\ (forall d,
         json r = Returned (PDict d) ->
         lookup d (py "error") = None ->
         generate_with_groq R prompt document_type W page
         = (Returned (py "Error: " ++ py "API Error " ++ str_of_int (status_code r)),
            page))
  /\ (forall e body,
         json r = Raised e ->
         text r = Returned body ->
         generate_with_groq R prompt document_type W page
         = (Returned (py "Error: "
                      ++ (py "API Error " ++ str_of_int (status_code r))
                      ++ py ": " ++ body), page)).
Proof.
  intros Htoken H Hstatus. apply Z.eqb_neq in Hstatus.
  assert (Hrun : forall (k : response -> M pystr) page0,
             try_except
               (bind (lift (requests_post W GROQ_API_URL
                              {| model := py "mixtral-8x7b-32768";
                                 messages :=
                                   [(py "system",
                                     dict_get system_prompts (py_lower R document_type)
                                       (dict_get system_prompts (py "document") []));
                                    (py "user",
                                     py "Please create a professional " ++ document_type
                                     ++ py " based on the following requirements:

" ++ prompt)];
                                 max_tokens := 1500; temperature := py "0.7";
                                 top_p := 1; stream := false |}
                              [(py "Authorization", py "Bearer " ++ GROQ_API_TOKEN W);
                               (py "Content-Type", py "application/json")] 30)) k)
               (fun e =>
                  match exn_cls e with
                  | RequestsTimeout => ret (py "Error: Request timed out. Please try again.")
                  | RequestsConnectionError =>
                      ret (py "Error: Connection failed. Please check your internet connection.")
                  | OtherException => ret (py "Error: " ++ exn_str e)
                  end) W page0
             = match k r W page0 with
               | (Returned a, page1) => (Returned a, page1)
               | (Raised e, page1) =>
                   match exn_cls e with
                   | RequestsTimeout =>
                       (Returned (py "Error: Request timed out. Please try again."), page1)
                   | RequestsConnectionError =>
                       (Returned (py "Error: Connection failed. Please check your internet connection."), page1)
                   | OtherException => (Returned (py "Error: " ++ exn_str e), page1)
                   end
               end).
  { intros k page0. unfold try_except, bind, lift.
    match goal with
    | |- context [requests_post W ?u ?p ?h ?t] =>
        destruct (H u p h t) as (r' & -> & ->)
    end.
    destruct (k r W page0) as [[a|e] page1]; [reflexivity |].
    now destruct (exn_cls e). }
  split; [| split]; intros;
    unfold generate_with_groq, bind at 1, world; rewrite Htoken; cbn [negb];
    rewrite Hrun, Hstatus; unfold try_except, bind, lift, ret.
  - match goal with
    | Hjson : json r = _, Herror : lookup _ _ = _ |- _ =>
        rewrite Hjson, py_in_dict, Herror, py_getitem_dict, Herror
    end.
    unfold py_get. now destruct (lookup details (py "message")).
  - match goal with
    | Hjson : json r = _, Herror : lookup _ _ = _ |- _ =>
        now rewrite Hjson, py_in_dict, Herror
    end.
  - match goal with
    | Hjson : json r = _, Htext : text r = _ |- _ => rewrite Hjson, Htext
    end.
    now rewrite <- !app_assoc.
Qed.

Example generate_with_groq_api_error_example :
  truthy (GROQ_API_TOKEN (world_with (py "key") (Returned rate_limit_reply))) = true
  /\ every_reply (world_with (py "key") (Returned rate_limit_reply))
                 (fun r' => r' = rate_limit_reply)
  /\ status_code rate_limit_reply <> 200%Z
  /\ generate_with_groq ascii_runtime (py "x") (py "letter")
       (world_with (py "key") (Returned rate_limit_reply)) []
     = (Returned (py "Error: "
                  ++ (py "API Error " ++ str_of_int (status_code rate_limit_reply))
                  ++ py ": "
                  ++ fstr ascii_runtime
                       match lookup rate_limit_details (py "message") with
                       | Some message => message
                       | None => PStr (py "Unknown error")
                       end), []).
Proof.
  assert (Ht : truthy (GROQ_API_TOKEN
                         (world_with (py "key") (Returned rate_limit_reply))) = true)
    by reflexivity.
  assert (Hr : every_reply (world_with (py "key") (Returned rate_limit_reply))
                           (fun r' => r' = rate_limit_reply)).
  { intros ? ? ? ?. eexists. split; reflexivity. }
  assert (Hs : status_code rate_limit_reply <> 200%Z) by discriminate.
  assert (He : lookup [(py "error", PDict rate_limit_details)] (py "error")
               = Some (PDict rate_limit_details)) by (vm_compute; reflexivity).
  split; [exact Ht |]. split; [exact Hr |]. split; [exact Hs |].
  exact (proj1 (generate_with_groq_api_error ascii_runtime (py "x") (py "letter")
                  _ [] _ Ht Hr Hs) _ _ eq_refl He).
Defined.

(** ** generate_content on the remote path *)

(** X11: generate_content shows at most the fallback notice, and only after a
    remote attempt: it returns with the page as it was, or, with the
    remote path preferred and a credential configured, with the notice
    added and the template result as its content. *)
Theorem generate_content_notice
        (R : PyRuntime) (prompt document_type : pystr) (use_api : bool)
        (W : World) (page : list st_call) :
  exists content page',
    generate_content R prompt document_type use_api W page = (Returned content, page')
    /\ (page' = page
        \/ (page' = with_fallback_notice page
            /\ use_api = true
            /\ truthy (GROQ_API_TOKEN W) = true
            /\ generate_with_template R prompt document_type W page
               = (Returned content, page))).
Proof.
  destruct (use_api && truthy (GROQ_API_TOKEN W)) eqn:E.
  - apply andb_true_iff in E as [-> Htoken].
    destruct (generate_with_groq_run R prompt document_type W page) as (result & Hgroq).
    rewrite (generate_content_remote _ _ _ _ _ _ _ Htoken Hgroq).
    destruct (startswith result (py "Error:")).
    + eexists _, _. split; [reflexivity |]. right.
      repeat split; try assumption. apply generate_with_template_run.
    + eexists _, _. split; [reflexivity | now left].
  - eexists _, page. split; [| now left].
    rewrite generate_content_template_mode; [apply generate_with_template_run |].
    apply andb_false_iff in E as [-> | E]; [now left | right].
    now destruct (GROQ_API_TOKEN W).
Qed.

(** ** The connectivity probe *)

Lemma test_groq_connection_flag (P : ProbeWorld) :
  exists ok message,
    test_groq_connection P = Returned (ok, message)
    /\ (ok = true <-> truthy (GROQ_API_TOKEN (probe_world P)) = true /\ probe_succeeds P).
Proof.
  unfold test_groq_connection, probe_succeeds, otry, obind.
  fold (probe_answer P).
  destruct (truthy (GROQ_API_TOKEN (probe_world P))); cbn [negb].
  - destruct (probe_answer P) as [r|e].
    + exists (status_code r =? 200)%Z, (py "Status: " ++ str_of_int (status_code r)).
      split; [reflexivity |]. rewrite Z.eqb_eq. split.
      * intros Hs. split; [reflexivity |]. now exists r.
      * intros [_ (r' & [= <-] & Hs)]. exact Hs.
    + exists false, (exn_str e). split; [reflexivity |].
      split; [discriminate |]. intros [_ (r' & [=] & _)].
  - exists false, (py "No API token"). split; [reflexivity |].
    split; [discriminate | intros [[=] _]].
Qed.

(** X12: test_groq_connection never raises.  Its flag is true exactly when a
    credential is configured and the probe is answered with status 200;
    its message is "No API token" without a credential, "Status: " and the
    status for an answer, and the text of the exception otherwise. *)
Theorem test_groq_connection_result (P : ProbeWorld) :
  exists ok message,
    test_groq_connection P = Returned (ok, message)
    /\ (ok = true <-> truthy (GROQ_API_TOKEN (probe_world P)) = true /\ probe_succeeds P)
    /\ (GROQ_API_TOKEN (probe_world P) = [] -> message = py "No API token")
    /\ (truthy (GROQ_API_TOKEN (probe_world P)) = true ->
        forall r, probe_answer P = Returned r ->
                  message = py "Status: " ++ str_of_int (status_code r))
    /\ (truthy (GROQ_API_TOKEN (probe_world P)) = true ->
        forall e, probe_answer P = Raised e -> message = exn_str e).
Proof.
  unfold test_groq_connection, probe_succeeds, otry, obind.
  fold (probe_answer P).
  destruct (truthy (GROQ_API_TOKEN (probe_world P))) eqn:Htoken; cbn [negb].
  - destruct (probe_answer P) as [r|e].
    + exists (status_code r =? 200)%Z, (py "Status: " ++ str_of_int (status_code r)).
      split; [reflexivity |]. split; [| split; [| split]].
      * rewrite Z.eqb_eq. split.
        -- intros Hs. split; [reflexivity |]. now exists r.
        -- intros [_ (r' & [= <-] & Hs)]. exact Hs.
      * intros E. rewrite E in Htoken. discriminate.
      * intros _ r' [= <-]. reflexivity.
      * intros _ e [=].
    + exists false, (exn_str e).
      split; [reflexivity |]. split; [| split; [| split]].
      * split; [discriminate |]. intros [_ (r' & [=] & _)].
      * intros E. rewrite E in Htoken. discriminate.
      * intros _ r [=].
      * intros _ e' [= <-]. reflexivity.
  - exists false, (py "No API token").
    split; [reflexivity |]. split; [| split; [| split]].
    + split; [discriminate | intros [[=] _]].
    + reflexivity.
    + discriminate.
    + discriminate.
Qed.

(** ** check_api_status and the choice of path in main *)

Lemma status_dict (ok : bool) (message : pystr) :
  dict_set (dict_set [] (py "groq") (SBool ok)) (py "groq_message") (SStr message)
  = [(py "groq", SBool ok); (py "groq_message", SStr message)].
Proof. reflexivity. Qed.

(** X13: check_api_status always returns a dictionary with both keys, [groq]
    and [groq_message], in this order; [groq] is true exactly when a
    credential is configured and the probe is answered with status 200,
    and the message without a credential is "No token configured". *)
Theorem check_api_status_shape (P : ProbeWorld) :
  exists ok message,
    check_api_status P = [(py "groq", SBool ok); (py "groq_message", SStr message)]
    /\ (ok = true <-> truthy (GROQ_API_TOKEN (probe_world P)) = true /\ probe_succeeds P)
    /\ (GROQ_API_TOKEN (probe_world P) = [] -> message = py "No token configured").
Proof.
  unfold check_api_status.
  destruct (test_groq_connection_flag P) as (ok & message & -> & Hok).
  destruct (truthy (GROQ_API_TOKEN (probe_world P))) eqn:Htoken.
  - exists ok, message. rewrite status_dict. split; [reflexivity |].
    split; [exact Hok |]. intros E. rewrite E in Htoken. discriminate.
  - exists false, (py "No token configured"). rewrite status_dict.
    split; [reflexivity |]. split; [| reflexivity].
    split; [discriminate | intros [[=] _]].
Qed.

Lemma check_api_status_dict (P : ProbeWorld) :
  exists ok message,
    check_api_status P = [(py "groq", SBool ok); (py "groq_message", SStr message)]
    /\ (ok = true <-> truthy (GROQ_API_TOKEN (probe_world P)) = true /\ probe_succeeds P).
Proof.
  unfold check_api_status.
  destruct (test_groq_connection_flag P) as (ok & message & -> & Hok).
  destruct (truthy (GROQ_API_TOKEN (probe_world P))) eqn:Htoken.
  - exists ok, message. rewrite status_dict. now split.
  - exists false, (py "No token configured"). rewrite status_dict.
    split; [reflexivity |]. split; [discriminate | intros [[=] _]].
Qed.

Lemma main_use_api_true (P : ProbeWorld) (checkbox : bool) :
  main_use_api (check_api_status P) checkbox = true ->
  checkbox = true
  /\ truthy (GROQ_API_TOKEN (probe_world P)) = true /\ probe_succeeds P.
Proof.
  destruct (check_api_status_dict P) as (ok & message & -> & Hok).
  unfold main_use_api.
  change (dict_get [(py "groq", SBool ok); (py "groq_message", SStr message)]
            (py "groq") (SBool false)) with (SBool ok).
  cbn [status_truth]. destruct ok; [| discriminate].
  intros ->. split; [reflexivity |]. now apply Hok.
Qed.

(** X14: The path main takes: unless a credential is configured and the probe
    is answered with status 200, generate_content as main calls it returns
    the template result and shows nothing, whatever the check box says and
    whatever the generation endpoint would answer. *)
Theorem probe_failure_means_template_mode
        (R : PyRuntime) (P : ProbeWorld) (checkbox : bool)
        (prompt document_type : pystr) (page : list st_call) :
  ~ (truthy (GROQ_API_TOKEN (probe_world P)) = true /\ probe_succeeds P) ->
  main_use_api (check_api_status P) checkbox = false
  /\ generate_content R prompt document_type
       (main_use_api (check_api_status P) checkbox) (probe_world P) page
     = (Returned (fill (base_template R document_type) prompt ++ note), page).
Proof.
  intros Hfail.
  assert (E : main_use_api (check_api_status P) checkbox = false).
  { destruct (main_use_api (check_api_status P) checkbox) eqn:E; [| reflexivity].
    exfalso. apply Hfail. now apply main_use_api_true in E. }
  split; [exact E |]. rewrite E.
  rewrite generate_content_template_mode by now left.
  apply generate_with_template_run.
Qed.

Example probe_failure_means_template_mode_example :
  ~ (truthy (GROQ_API_TOKEN (probe_world (probe_with (py "key") (http 401 PNone)))) = true
     /\ probe_succeeds (probe_with (py "key") (http 401 PNone)))
  /\ (main_use_api (check_api_status (probe_with (py "key") (http 401 PNone))) true = false
      /\ generate_content ascii_runtime (py "x") (py "letter")
           (main_use_api (check_api_status (probe_with (py "key") (http 401 PNone))) true)
           (probe_world (probe_with (py "key") (http 401 PNone))) []
         = (Returned (fill (base_template ascii_runtime (py "letter")) (py "x") ++ note), [])).
Proof.
  assert (H : ~ (truthy (GROQ_API_TOKEN
                           (probe_world (probe_with (py "key") (http 401 PNone)))) = true
                 /\ probe_succeeds (probe_with (py "key") (http 401 PNone)))).
  { intros [_ (r & Hr & Hs)]. injection Hr as <-. discriminate. }
  split; [exact H |].
  exact (probe_failure_means_template_mode ascii_runtime _ true (py "x") (py "letter") [] H).
Defined.

(** ** get_api_tokens *)

(** X15: get_api_tokens never raises: when the secrets cannot be read it shows
    one warning and returns two empty tokens; otherwise it shows nothing
    and returns the two secrets, each empty when it is not in the store.
    A world whose credential is the token returned without a GROQ_TOKEN
    secret generates in template mode. *)
Theorem get_api_tokens_result
        (secrets : outcome (list (pystr * pystr)))
        (W0 : World) (page0 : list st_call) :
  exists groq_token hf_token page1,
    get_api_tokens secrets W0 page0 = (Returned (groq_token, hf_token), page1)
    /\ (forall e, secrets = Raised e ->
                  groq_token = [] /\ hf_token = []
                  /\ page1 = with_secrets_warning page0)
    /\ (forall store, secrets = Returned store ->
                      groq_token = dict_get store (py "GROQ_TOKEN") []
                      /\ hf_token = dict_get store (py "HF_TOKEN") []
                      /\ page1 = page0)
    /\ ((forall store, secrets = Returned store ->
                       ~ In (py "GROQ_TOKEN") (map fst store)) ->
        forall R W prompt document_type use_api page,
          GROQ_API_TOKEN W = groq_token ->
          generate_content R prompt document_type use_api W page
          = (Returned (fill (base_template R document_type) prompt ++ note), page)).
Proof.
  unfold get_api_tokens, try_except, bind, lift, ret, show.
  destruct secrets as [store | e].
  - eexists _, _, _. split; [reflexivity |]. split; [| split].
    + intros e [=].
    + intros store' [= <-]. repeat split.
    + intros Hno R W prompt document_type use_api page Htoken.
      rewrite generate_content_template_mode; [apply generate_with_template_run |].
      right. rewrite Htoken.
      destruct (dict_get_cases store (py "GROQ_TOKEN") []) as [Hin | [_ E]];
        [| exact E].
      exfalso. apply (Hno store eq_refl). exact (in_map fst _ _ Hin).
  - eexists _, _, _. split; [reflexivity |]. split; [| split].
    + intros e' _. repeat split.
    + intros store [=].
    + intros _ R W prompt document_type use_api page Htoken.
      rewrite generate_content_template_mode; [apply generate_with_template_run |].
      now right.
Qed.

(** ** The buttons and the download of main *)

Lemma lstrip_head (s : pystr) (c : codepoint) (t : pystr) :
  lstrip s = c :: t -> isspace c = false /\ In c s.
Proof.
  induction s as [|a s IH]; cbn [lstrip]; [discriminate |].
  destruct (isspace a) eqn:E.
  - intros H. destruct (IH H) as [Hc Hin]. split; [exact Hc | now right].
  - intros [= <- <-]. split; [exact E | now left].
Qed.

Lemma lstrip_nil (s : pystr) :
  lstrip s = [] <-> forall c, In c s -> isspace c = true.
Proof.
  induction s as [|a s IH]; cbn [lstrip]; [easy |].
  destruct (isspace a) eqn:E.
  - rewrite IH. split.
    + intros H c [<- | Hc]; [exact E | now apply H].
    + intros H c Hc. apply H. now right.
  - split; [discriminate |]. intros H.
    rewrite (H a (or_introl eq_refl)) in E. discriminate.
Qed.

Lemma strip_nil (s : pystr) :
  strip s = [] <-> forall c, In c s -> isspace c = true.
Proof.
  unfold strip, rstrip. split.
  - intros H. apply lstrip_nil.
    destruct (lstrip s) as [|c t] eqn:E; [reflexivity |].
    destruct (lstrip_head _ _ _ E) as [Hc _].
    assert (Hr : lstrip (rev (c :: t)) = []).
    { rewrite <- (rev_involutive (lstrip (rev (c :: t)))), H. reflexivity. }
    rewrite lstrip_nil in Hr.
    rewrite (Hr c) in Hc; [discriminate |]. apply in_rev. rewrite rev_involutive.
    now left.
  - intros H. apply lstrip_nil in H. now rewrite H.
Qed.

(** X16: A button of main acts exactly when it is pressed and the prompt holds
    a character that is not white space: an empty or white-space-only
    prompt never starts a generation. *)
Theorem requested_iff (btn : bool) (prompt : pystr) :
  requested btn prompt = true
  <-> btn = true /\ exists c, In c prompt /\ isspace c = false.
Proof.
  unfold requested. rewrite andb_true_iff.
  assert (Hs : truthy (strip prompt) = true
               <-> exists c, In c prompt /\ isspace c = false).
  { split.
    - intros Ht.
      assert (Hne : ~ forall c, In c prompt -> isspace c = true).
      { intros Hall. apply strip_nil in Hall. rewrite Hall in Ht. discriminate. }
      induction prompt as [|a prompt IH]; [now contradiction Hne |].
      destruct (isspace a) eqn:Ea.
      + destruct IH as (c & Hc & Hsp).
        * destruct (truthy (strip prompt)) eqn:Et; [reflexivity |].
          exfalso. apply Hne. intros c [<- | Hc]; [exact Ea |].
          assert (Hn : strip prompt = []) by now destruct (strip prompt).
          now apply (proj1 (strip_nil prompt) Hn).
        * intros Hall. apply Hne. intros c [<- | Hc]; [exact Ea | now apply Hall].
        * exists c. split; [now right | exact Hsp].
      + exists a. split; [now left | exact Ea].
    - intros (c & Hc & Hsp).
      destruct (strip prompt) as [|x t] eqn:E; [| reflexivity].
      rewrite (proj1 (strip_nil prompt) E c Hc) in Hsp. discriminate. }
  now rewrite Hs.
Qed.

Lemma startswith_self_app (p x : pystr) : startswith (p ++ x) p = true.
Proof.
  induction p as [|c p IH]; [apply startswith_nil |].
  cbn [app startswith]. now rewrite N.eqb_refl, IH.
Qed.

Lemma endswith_app (a b : pystr) : endswith (a ++ b) b = true.
Proof. unfold endswith. rewrite rev_app_distr. apply startswith_self_app. Qed.

Lemma replace_removes (old new : codepoint) (s : pystr) :
  old <> new -> ~ In old (replace old new s).
Proof.
  intros Hne. unfold replace. rewrite in_map_iff. intros (c & Hc & _).
  destruct (N.eqb_spec c old); congruence.
Qed.

(** X17: The name of the download starts with the selected type, its spaces
    replaced by underscores, and ends with ".pdf"; a space in the name can
    only come from the time stamp. *)
Theorem download_filename_shape (W : World) (selected_doc_type : pystr) :
  startswith (download_filename W selected_doc_type)
             (replace 32 95 selected_doc_type ++ py "_") = true
  /\ endswith (download_filename W selected_doc_type) (py ".pdf") = true
  /\ length (replace 32 95 selected_doc_type) = length selected_doc_type
  /\ (In 32 (download_filename W selected_doc_type) ->
      In 32 (now_strftime W (py "%Y%m%d_%H%M%S"))).
Proof.
  unfold download_filename. split; [| split; [| split]].
  - rewrite (app_assoc (replace 32 95 selected_doc_type)).
    apply startswith_self_app.
  - rewrite !app_assoc. apply endswith_app.
  - apply length_map.
  - rewrite !in_app_iff. intros [H | [H | [H | H]]].
    + now apply replace_removes in H.
    + vm_compute in H. destruct H as [H | []]. discriminate.
    + exact H.
    + vm_compute in H. repeat (destruct H as [H | H]; [discriminate |]).
      contradiction.
Qed.

(** ** The document types of the sidebar *)

Lemma lowercase_key (R : PyRuntime) (key : pystr) :
  ascii_conformant R ->
  forallb (fun c => (c <? 128) && (ascii_tolower c =? c)) key = true ->
  py_lower R key = key.
Proof.
  intros HR H. rewrite forallb_forall in H.
  rewrite (conf_lower R HR).
  - rewrite <- (map_id key) at 2. apply map_ext_in. intros c Hc.
    specialize (H c Hc). apply andb_true_iff in H as [_ H]. now apply N.eqb_eq.
  - apply Forall_forall. intros c Hc. specialize (H c Hc).
    apply andb_true_iff in H as [H _]. now apply N.ltb_lt.
Qed.

Lemma worldless_ret {A} (a : A) : worldless (ret a).
Proof. now intros W W' page. Qed.

Lemma worldless_lift {A} (o : outcome A) : worldless (lift o).
Proof. now intros W W' page. Qed.

Lemma worldless_bind {A B} (m : M A) (k : A -> M B) :
  worldless m -> (forall a, worldless (k a)) -> worldless (bind m k).
Proof.
  intros Hm Hk W W' page. unfold bind. rewrite (Hm W W' page).
  destruct (m W' page) as [[a|e] page1]; [apply Hk | reflexivity].
Qed.

Lemma worldless_try_except {A} (m : M A) (h : exn -> M A) :
  worldless m -> (forall e, worldless (h e)) -> worldless (try_except m h).
Proof.
  intros Hm Hh W W' page. unfold try_except. rewrite (Hm W W' page).
  destruct (m W' page) as [[a|e] page1]; [reflexivity | apply Hh].
Qed.

Ltac worldless_step :=
  first [ apply worldless_ret | apply worldless_lift
        | apply worldless_try_except | apply worldless_bind
        | match goal with
          | |- worldless (if ?b then _ else _) => destruct b
          | |- worldless (match ?x with _ => _ end) => destruct x
          end ].

Ltac worldless_tac := repeat (intros; worldless_step).

Lemma bind_world {B} (k : World -> M B) (W : World) (page : list st_call) :
  bind world k W page = k W W page.
Proof. reflexivity. Qed.

(** The answer of generate_with_groq depends on the world through the
    credential and the answer to one request only: the request whose
    system prompt is the one selected for the lowered document type. *)
Lemma generate_with_groq_request (R : PyRuntime) (prompt document_type : pystr)
      (W W' : World) (page : list st_call) :
  same_answer W W'
    (chat_request
       (dict_get system_prompts (py_lower R document_type)
          (dict_get system_prompts (py "document") []))
       document_type prompt) ->
  generate_with_groq R prompt document_type W' page
  = generate_with_groq R prompt document_type W page.
Proof.
  unfold same_answer, chat_request, chat_headers. intros [Htoken Hanswer].
  unfold generate_with_groq. rewrite !bind_world.
  rewrite Htoken, Hanswer.
  match goal with
  | |- ?m W' page = ?m W page => assert (Hm : worldless m); [| apply Hm]
  end.
  worldless_tac.
Qed.



(** The request in a world that tells the system prompts apart: only the
    request that carries the proposal prompt is answered with a text, and
    for the proposal type generate_with_groq returns that text. *)
Example generate_with_groq_sends_listed_prompt :
  generate_with_groq ascii_runtime (py "x") (py "proposal")
    (world_expecting
       (dict_get system_prompts (py "proposal") []) (py "PLAN")) []
  = (Returned (py "PLAN"), [])
  /\ generate_with_groq ascii_runtime (py "x") (py "resume")
       (world_expecting
          (dict_get system_prompts (py "proposal") []) (py "PLAN")) []
     = (Returned (py "Error: API Error 400: "), []).
Proof. split; vm_compute; reflexivity. Qed.

(** ** The answers with status 200 *)

Lemma groq_reply_run (R : PyRuntime) (prompt document_type : pystr)
      (W : World) (page : list st_call) (r : response) :
  truthy (GROQ_API_TOKEN W) = true ->
  every_reply W (fun r' => r' = r) ->
  status_code r = 200%Z ->
  generate_with_groq R prompt document_type W page
  = match
      (result <- lift (json r);;
       has_choices <- lift (py_in R (py "choices") result);;
       nonempty <- (if has_choices then
                      choices <- lift (py_getitem R result (KStr (py "choices")));;
                      n <- lift (py_len R choices);;
                      ret (0 <? n)%Z
                    else ret false);;
       if nonempty then
         choices <- lift (py_getitem R result (KStr (py "choices")));;
         choice <- lift (py_getitem R choices (KInt 0));;
         message <- lift (py_getitem R choice (KStr (py "message")));;
         content <- lift (py_getitem R message (KStr (py "content")));;
         lift (py_strip R content)
       else ret (py "Error: Invalid response format from API"))%monad W page
    with
    | (Returned a, page1) => (Returned a, page1)
    | (Raised e, page1) =>
        match exn_cls e with
        | RequestsTimeout =>
            (Returned (py "Error: Request timed out. Please try again."), page1)
        | RequestsConnectionError =>
            (Returned (py "Error: Connection failed. Please check your internet connection."), page1)
        | OtherException => (Returned (py "Error: " ++ exn_str e), page1)
        end
    end.
Proof.
  intros Htoken H Hstatus.
  unfold generate_with_groq, bind at 1, world. rewrite Htoken. cbn [negb].
  unfold try_except, bind at 1, lift at 1.
  match goal with
  | |- context [requests_post W ?u ?p ?h ?t] =>
      destruct (H u p h t) as (r' & -> & ->)
  end.
  rewrite Hstatus. cbn [Z.eqb Pos.eqb].
  match goal with
  | |- match ?m with _ => _ end = _ => destruct m as [[a|e] page1]
  end; [reflexivity |].
  now destruct (exn_cls e).
Qed.

Ltac groq_leaf :=
  first [ reflexivity
        | apply is_error_prefix
        | discriminate
        | congruence ].

(** X19: With a credential configured and status 200, generate_with_groq never
    raises: a body that is an object whose [choices] list starts with an
    object holding [message.content] as a string gives that string,
    trimmed; every other body, and a body that is not JSON, gives a text
    that starts with "Error:". *)
Theorem generate_with_groq_status_200
        (R : PyRuntime) (prompt document_type : pystr)
        (W : World) (page : list st_call) (r : response) :
  truthy (GROQ_API_TOKEN W) = true ->
  every_reply W (fun r' => r' = r) ->
  status_code r = 200%Z ->
  exists result,
    generate_with_groq R prompt document_type W page = (Returned result, page)
    /\ (forall body content,
          json r = Returned body -> first_choice_content body = Some content ->
          result = strip content)
    /\ (forall body,
          json r = Returned body -> first_choice_content body = None ->
          is_error result)
    /\ (forall e, json r = Raised e -> is_error result).
Proof.
  intros Htoken H Hstatus.
  rewrite (groq_reply_run R prompt document_type W page r Htoken H Hstatus).
  unfold bind, lift, ret, is_error.
  destruct (json r) as [body | e].
  2:{ destruct e as [[] msg]; cbn [exn_cls]; eexists;
      (split; [reflexivity |]); (split; [| split]); intros;
      try discriminate; groq_leaf. }
  assert (Hgoal : forall result,
             (first_choice_content body = None -> is_error result)
             /\ (forall content, first_choice_content body = Some content ->
                                 result = strip content) ->
             (forall body0 content,
                 Returned body = Returned body0 ->
                 first_choice_content body0 = Some content -> result = strip content)
             /\ (forall body0,
                    Returned body = Returned body0 ->
                    first_choice_content body0 = None ->
                    startswith result (py "Error:") = true)
             /\ (forall e, @Returned pyval body = Raised e ->
                           startswith result (py "Error:") = true)).
  { intros result [Hnone Hsome]. split; [| split].
    - intros body0 content [= <-]. apply Hsome.
    - intros body0 [= <-]. apply Hnone.
    - discriminate. }
  destruct body as [| b | z | lit | s | l | d];
    cbn [py_in builtin exn_cls];
    try (eexists; split; [reflexivity |]; apply Hgoal; split;
         [intros _; groq_leaf | intros content; discriminate]).
  - (* a string *)
    destruct (contains s (py "choices"));
      cbn [py_getitem builtin exn_cls];
      eexists; (split; [reflexivity |]); apply Hgoal; split;
      try (intros _; groq_leaf); intros content; discriminate.
  - (* a list *)
    destruct (existsb _ l);
      cbn [py_getitem builtin exn_cls];
      eexists; (split; [reflexivity |]); apply Hgoal; split;
      try (intros _; groq_leaf); intros content; discriminate.
  - (* an object *)
    rewrite lookup_existsb. cbn [first_choice_content] in Hgoal.
    destruct (lookup d (py "choices")) as [choices |] eqn:Hchoices.
    2:{ eexists; split; [reflexivity |]; apply Hgoal; split;
        [intros _; groq_leaf | intros content; discriminate]. }
    rewrite py_getitem_dict, Hchoices.
    destruct choices as [| b | z | lit | s | l | d'];
      cbn [py_len builtin exn_cls];
      try (eexists; split; [reflexivity |]; apply Hgoal; split;
           [intros _; groq_leaf | intros content; discriminate]).
    + (* choices is a string *)
      destruct s as [|c s];
        cbn [length Z.of_nat Z.ltb Z.compare py_getitem builtin exn_cls];
        eexists; (split; [reflexivity |]); apply Hgoal; split;
        try (intros _; groq_leaf); intros content; discriminate.
    + (* choices is a list *)
      destruct l as [|choice l];
        cbn [length Z.of_nat Z.ltb Z.compare py_getitem builtin exn_cls].
      { eexists; split; [reflexivity |]; apply Hgoal; split;
        [intros _; groq_leaf | intros content; discriminate]. }
      destruct choice as [| b | z | lit | s | l' | cd];
        cbn [py_getitem builtin exn_cls];
        try (eexists; split; [reflexivity |]; apply Hgoal; split;
             [intros _; groq_leaf | intros content; discriminate]).
      destruct (lookup cd (py "message")) as [message |];
        cbn [builtin exn_cls].
      2:{ eexists; split; [reflexivity |]; apply Hgoal; split;
          [intros _; groq_leaf | intros content; discriminate]. }
      destruct message as [| b | z | lit | s | l' | md];
        cbn [py_getitem builtin exn_cls];
        try (eexists; split; [reflexivity |]; apply Hgoal; split;
             [intros _; groq_leaf | intros content; discriminate]).
      destruct (lookup md (py "content")) as [content |];
        cbn [builtin exn_cls].
      2:{ eexists; split; [reflexivity |]; apply Hgoal; split;
          [intros _; groq_leaf | intros content; discriminate]. }
      destruct content as [| b | z | lit | s | l' | xd];
        cbn [py_strip builtin exn_cls];
        eexists; (split; [reflexivity |]); apply Hgoal; split;
        try (intros _; groq_leaf); try (intros content; discriminate).
      now intros content [= <-].
    + (* choices is an object *)
      destruct d' as [|kv d'];
        cbn [length Z.of_nat Z.ltb Z.compare py_getitem builtin exn_cls];
        eexists; (split; [reflexivity |]); apply Hgoal; split;
        try (intros _; groq_leaf); intros content; discriminate.
Qed.

Example generate_with_groq_status_200_example :
  truthy (GROQ_API_TOKEN (world_with (py "key") (Returned greeting_reply))) = true
  /\ every_reply (world_with (py "key") (Returned greeting_reply))
                 (fun r' => r' = greeting_reply)
  /\ status_code greeting_reply = 200%Z
  /\ exists result,
      generate_with_groq ascii_runtime (py "x") (py "letter")
        (world_with (py "key") (Returned greeting_reply)) []
      = (Returned result, [])
      /\ (forall body content,
            json greeting_reply = Returned body ->
            first_choice_content body = Some content ->
            result = strip content)
      /\ (forall body,
            json greeting_reply = Returned body ->
            first_choice_content body = None ->
            is_error result)
      /\ (forall e, json greeting_reply = Raised e -> is_error result).
Proof.
  assert (Ht : truthy (GROQ_API_TOKEN
                         (world_with (py "key") (Returned greeting_reply))) = true)
    by reflexivity.
  assert (Hr : every_reply (world_with (py "key") (Returned greeting_reply))
                           (fun r' => r' = greeting_reply)).
  { intros ? ? ? ?. eexists. split; reflexivity. }
  assert (Hs : status_code greeting_reply = 200%Z) by reflexivity.
  split; [exact Ht |]. split; [exact Hr |]. split; [exact Hs |].
  exact (generate_with_groq_status_200 ascii_runtime (py "x") (py "letter")
           _ [] _ Ht Hr Hs).
Defined.

(** ** A completion on the remote path *)

Lemma first_choice_content_shape (body : pyval) (content : pystr) :
  first_choice_content body = Some content ->
  exists d choice rest message,
    body = PDict d
    /\ lookup d (py "choices") = Some (PList (PDict choice :: rest))
    /\ lookup choice (py "message") = Some (PDict message)
    /\ lookup message (py "content") = Some (PStr content).
Proof.
  unfold first_choice_content.
  destruct body as [| | | | | | d]; try discriminate.
  destruct (lookup d (py "choices")) as [choices |] eqn:Hch; [| discriminate].
  destruct choices as [| | | | | [|first rest] |]; try discriminate.
  destruct first as [| | | | | | choice]; try discriminate.
  destruct (lookup choice (py "message")) as [message |] eqn:Hm; [| discriminate].
  destruct message as [| | | | | | message]; try discriminate.
  destruct (lookup message (py "content")) as [text |] eqn:Hc; [| discriminate].
  destruct text as [| | | | s | |]; try discriminate.
  intros [= <-]. exists d, choice, rest, message. repeat split; assumption.
Qed.

Lemma generate_with_groq_first_choice
      (R : PyRuntime) (prompt document_type : pystr)
      (W : World) (page : list st_call) (r : response)
      (body : pyval) (content : pystr) :
  truthy (GROQ_API_TOKEN W) = true ->
  every_reply W (fun r' => r' = r) ->
  status_code r = 200%Z ->
  json r = Returned body ->
  first_choice_content body = Some content ->
  generate_with_groq R prompt document_type W page = (Returned (strip content), page).
Proof.
  intros Htoken H Hstatus Hjson Hcontent.
  destruct (first_choice_content_shape _ _ Hcontent)
    as (d & choice & rest & message & -> & Hc & Hm & Ht).
  rewrite (groq_reply_run R prompt document_type W page r Htoken H Hstatus).
  unfold bind, lift, ret. rewrite Hjson, py_in_dict, Hc, py_getitem_dict, Hc.
  cbn [py_len length Z.of_nat Z.ltb Z.compare py_getitem].
  rewrite Hm, py_getitem_dict, Ht. reflexivity.
Qed.

(** X10: with a credential configured and the remote path preferred, an
    answer with status 200 whose body holds a text at
    [choices[0].message.content], whatever else the body holds, makes
    generate_content return that text, trimmed, and show nothing, provided
    the trimmed text does not start with "Error:". *)
Theorem generate_content_completion
        (R : PyRuntime) (prompt document_type : pystr)
        (W : World) (page : list st_call) (r : response)
        (body : pyval) (content : pystr) :
  truthy (GROQ_API_TOKEN W) = true ->
  every_reply W (fun r' => r' = r) ->
  status_code r = 200%Z ->
  json r = Returned body ->
  first_choice_content body = Some content ->
  startswith (strip content) (py "Error:") = false ->
  generate_content R prompt document_type true W page
  = (Returned (strip content), page).
Proof.
  intros Htoken H Hstatus Hjson Hcontent Hok.
  rewrite (generate_content_remote R prompt document_type W page page (strip content) Htoken).
  - now rewrite Hok.
  - now apply (generate_with_groq_first_choice R prompt document_type W page r body).
Qed.

Example generate_content_completion_example :
  truthy (GROQ_API_TOKEN (world_with (py "key") (Returned chat_completion_reply))) = true
  /\ every_reply (world_with (py "key") (Returned chat_completion_reply))
                 (fun r' => r' = chat_completion_reply)
  /\ status_code chat_completion_reply = 200%Z
  /\ json chat_completion_reply = Returned chat_completion_body
  /\ first_choice_content chat_completion_body = Some (py "  Dear Sir,
")
  /\ startswith (strip (py "  Dear Sir,
")) (py "Error:") = false
  /\ generate_content ascii_runtime (py "x") (py "letter") true
       (world_with (py "key") (Returned chat_completion_reply)) []
     = (Returned (strip (py "  Dear Sir,
")), []).
Proof.
  assert (Ht : truthy (GROQ_API_TOKEN
                         (world_with (py "key") (Returned chat_completion_reply))) = true)
    by reflexivity.
  assert (Hr : every_reply (world_with (py "key") (Returned chat_completion_reply))
                           (fun r' => r' = chat_completion_reply)).
  { intros ? ? ? ?. eexists. split; reflexivity. }
  assert (Hs : status_code chat_completion_reply = 200%Z) by reflexivity.
  assert (Hj : json chat_completion_reply = Returned chat_completion_body)
    by reflexivity.
  assert (Hc : first_choice_content chat_completion_body = Some (py "  Dear Sir,
")) by (vm_compute; reflexivity).
  assert (Hok : startswith (strip (py "  Dear Sir,
")) (py "Error:") = false) by (vm_compute; reflexivity).
  split; [exact Ht |]. split; [exact Hr |]. split; [exact Hs |].
  split; [exact Hj |]. split; [exact Hc |]. split; [exact Hok |].
  exact (generate_content_completion ascii_runtime (py "x") (py "letter")
           _ [] chat_completion_reply _ _ Ht Hr Hs Hj Hc Hok).
Defined.

(** ** The headers of the templates *)

Lemma document_opening :
  exists tail,
    clean_text_for_pdf (before_placeholder template_document)
    = py "PROFESSIONAL DOCUMEN" ++ 84 :: 10 :: 10 :: tail.
Proof.
  exists (skipn 23 (clean_text_for_pdf (before_placeholder template_document))).
  vm_compute. reflexivity.
Qed.

Lemma document_title_unit :
  split_blank (py "PROFESSIONAL DOCUMEN" ++ [84]) = [py "PROFESSIONAL DOCUMENT"].
Proof. vm_compute. reflexivity. Qed.

Lemma professional_document_heading (R : PyRuntime) :
  ascii_conformant R ->
  looks_like_heading R (strip (py "PROFESSIONAL DOCUMENT")) = true.
Proof.
  intros HR.
  replace (strip (py "PROFESSIONAL DOCUMENT")) with (py "PROFESSIONAL DOCUMENT")
    by (vm_compute; reflexivity).
  unfold looks_like_heading. apply andb_true_iff.
  split; [vm_compute; reflexivity |]. apply orb_true_iff. left.
  assert (F : forallb (fun c => (c <? 128) && negb (ascii_islower c))
                (py "PROFESSIONAL DOCUMENT") = true) by (vm_compute; reflexivity).
  rewrite forallb_forall in F.
  replace (isupper R (py "PROFESSIONAL DOCUMENT"))
    with (isupper_scan R (py "PROFESSIONAL DOCUMENT") false)
    by (vm_compute; reflexivity).
  rewrite isupper_scan_upper.
  - cbn [orb]. apply existsb_exists. exists 80.
    split; [vm_compute; now left |]. now rewrite (conf_isupper R HR).
  - intros c Hc. specialize (F c Hc). apply andb_true_iff in F as [F1 F2].
    apply N.ltb_lt in F1. apply negb_true_iff in F2.
    now rewrite (conf_islower R HR), (conf_istitle R HR).
Qed.



